(** * Bookkeeping: the domain model and the ledger store of [main.py]

    A shallow embedding of the persistence and aggregation layer of the
    bookkeeping application ([Record], [RecordManager]) together with the
    parts of the Python runtime and of the embedded SQL engine its
    observable behaviour depends on:

    - Python exceptions are an error monad ([result]); a [try]/[except
      Exception] block is [try_except];
    - a naive [datetime] is a record of its calendar fields, with
      [isoformat], [fromisoformat], [replace(day=...)] and the two
      [strftime] patterns the program uses;
    - the database file is a value of type [storage]: it either cannot be
      opened, or holds the two tables, each of which may still be missing,
      and the counter from which [AUTOINCREMENT] continues; a file that
      opens is taken to be writable (not locked, on a disk with room);
    - an SQL query is the list program it denotes: [WHERE] is [filter],
      [ORDER BY ... DESC] a stable sort on the byte order of the stored
      text, [LIMIT] is [take], [GROUP BY]/[SUM] a fold per distinct key,
      [LEFT JOIN ... ON r.category_id = c.id] a lookup by primary key.

    Amounts ([REAL] columns, Python [float]) are kept abstract: the store
    only ever adds them, tests them for truth and refuses the one that is
    not a number, so every result below holds for any carrier with these
    operations, and the results that need addition to be exact say so.
    Binary floating point is one carrier ([float_Amount]), integers in
    minor units are another ([Z_Amount]). *)

From Stdlib Require Import ZArith String Ascii List Lia Bool PrimFloat.
From stdpp Require Import gmap strings list fin_maps sorting.

Local Open Scope string_scope.
Local Open Scope Z_scope.

(** * Exceptions *)

(** The exception classes that the modelled code can meet; all of them
    derive from [Exception]. *)
Inductive exn : Type :=
  | ValueError          (* enum lookup, fromisoformat, replace; its
                           subclass UnicodeEncodeError *)
  | OverflowError       (* sqlite3: Python int too large to convert *)
  | OperationalError    (* sqlite3: unable to open file, no such table,
                           database or disk is full *)
  | IntegrityError.     (* sqlite3: datatype mismatch, NOT NULL
                           constraint failed *)

Inductive result (T : Type) : Type :=
  | Ok (v : T)
  | Raise (e : exn).
Arguments Ok {T} v.
Arguments Raise {T} e.

(** Sequencing: the first exception raised ends the computation. *)
Global Instance result_ret : MRet result := fun T v => Ok v.

Global Instance result_bind : MBind result := fun T U k c =>
  match c with
  | Ok v => k v
  | Raise e => Raise e
  end.

(** [try: body / except Exception as e: handler]. *)
Definition try_except {T} (body : result T) (handler : exn -> T) : T :=
  match body with
  | Ok v => v
  | Raise e => handler e
  end.

(** [for x in l: ys.append(f x)], stopping at the first exception. *)
Fixpoint for_each {T U} (f : T -> result U) (l : list T) : result (list U) :=
  match l with
  | [] => Ok []
  | x :: l' => y ← f x; ys ← for_each f l'; Ok (y :: ys)
  end.

(** * Naive datetimes *)

Module Datetime.

Record datetime : Type := mk {
  year : Z; month : Z; day : Z;
  hour : Z; minute : Z; second : Z; microsecond : Z
}.

Definition is_leap (y : Z) : bool :=
  (y mod 4 =? 0) && (negb (y mod 100 =? 0) || (y mod 400 =? 0)).

Definition days_in_month (y m : Z) : Z :=
  if m =? 2 then (if is_leap y then 29 else 28)
  else if (m =? 4) || (m =? 6) || (m =? 9) || (m =? 11) then 30
  else 31.

(** The checks of the [datetime] constructor. *)
Definition valid (d : datetime) : bool :=
  (1 <=? year d) && (year d <=? 9999) &&
  (1 <=? month d) && (month d <=? 12) &&
  (1 <=? day d) && (day d <=? days_in_month (year d) (month d)) &&
  (0 <=? hour d) && (hour d <=? 23) &&
  (0 <=? minute d) && (minute d <=? 59) &&
  (0 <=? second d) && (second d <=? 59) &&
  (0 <=? microsecond d) && (microsecond d <=? 999999).

(** [d.replace(day=n)]: the constructor runs again on the new fields. *)
Definition replace_day (d : datetime) (n : Z) : result datetime :=
  let d' := mk (year d) (month d) n (hour d) (minute d) (second d)
               (microsecond d) in
  if valid d' then Ok d' else Raise ValueError.

(** [d.date()] and its [==]. *)
Definition date (d : datetime) : Z * Z * Z := (year d, month d, day d).

Definition date_eqb (a b : Z * Z * Z) : bool :=
  let '(y1, m1, d1) := a in
  let '(y2, m2, d2) := b in
  (y1 =? y2) && (m1 =? m2) && (d1 =? d2).

(** [a < b], [a == b], [a > b] on naive datetimes: the fields are
    compared from the year down. *)
Definition lex (c1 c2 : comparison) : comparison :=
  match c1 with Eq => c2 | _ => c1 end.

Definition compare (a b : datetime) : comparison :=
  lex (year a ?= year b) (lex (month a ?= month b) (lex (day a ?= day b)
  (lex (hour a ?= hour b) (lex (minute a ?= minute b)
  (lex (second a ?= second b) (microsecond a ?= microsecond b)))))).

Definition leb (a b : datetime) : bool :=
  match compare a b with Gt => false | _ => true end.

(** ** Decimal fields *)

Definition digit_char (d : Z) : ascii := ascii_of_N (48 + Z.to_N d).

Definition digit_val (c : ascii) : option Z :=
  let n := Z.of_N (N_of_ascii c) in
  if (48 <=? n) && (n <=? 57) then Some (n - 48) else None.

(** [k] on [n] digits, zero padded, most significant digit first. *)
Fixpoint pad (n : nat) (k : Z) : string :=
  match n with
  | O => EmptyString
  | S n' => String (digit_char ((k / 10 ^ Z.of_nat n') mod 10)) (pad n' k)
  end.

(** Read exactly [n] digits off the front of [s]. *)
Fixpoint read_digits (n : nat) (acc : Z) (s : string) : option (Z * string) :=
  match n with
  | O => Some (acc, s)
  | S n' =>
      match s with
      | String c s' =>
          match digit_val c with
          | Some d => read_digits n' (10 * acc + d) s'
          | None => None
          end
      | EmptyString => None
      end
  end.

Definition expect (c : ascii) (s : string) : option string :=
  match s with
  | String c' s' => if Ascii.eqb c c' then Some s' else None
  | EmptyString => None
  end.

(** ** [isoformat] and [fromisoformat] *)

(** [YYYY-MM-DDTHH:MM:SS], followed by [.ffffff] when the microsecond
    is not zero. *)
Definition isoformat (d : datetime) : string :=
  pad 4 (year d) ++ "-" ++ pad 2 (month d) ++ "-" ++ pad 2 (day d) ++ "T" ++
  pad 2 (hour d) ++ ":" ++ pad 2 (minute d) ++ ":" ++ pad 2 (second d) ++
  (if microsecond d =? 0 then "" else "." ++ pad 6 (microsecond d)).

(** [fromisoformat] is the inverse of [isoformat]: the two spellings
    that [isoformat] writes are recognised, the text must be consumed
    entirely and the fields must pass the constructor's checks. The
    library reads more spellings than these (a date alone, another
    separator, [HH:MM], a three-digit fraction, a UTC offset, and further
    ones from version to version); no row written by [add_record] has
    one. For such a text, which only another writer can have stored,
    the model raises where the library may return a datetime, so what is
    proved below about the date of a record is proved for rows whose text
    [isoformat] wrote ([iso_date]). *)
Definition parse (s : string) : option datetime :=
  '(y, s) ← read_digits 4 0 s;
  s ← expect "-" s;
  '(mo, s) ← read_digits 2 0 s;
  s ← expect "-" s;
  '(dd, s) ← read_digits 2 0 s;
  s ← expect "T" s;
  '(h, s) ← read_digits 2 0 s;
  s ← expect ":" s;
  '(mi, s) ← read_digits 2 0 s;
  s ← expect ":" s;
  '(se, s) ← read_digits 2 0 s;
  match s with
  | EmptyString => Some (mk y mo dd h mi se 0)
  | _ =>
      s ← expect "." s;
      '(us, s) ← read_digits 6 0 s;
      match s with
      | EmptyString => Some (mk y mo dd h mi se us)
      | _ => None
      end
  end.

Definition fromisoformat (s : string) : result datetime :=
  match parse s with
  | Some d => if valid d then Ok d else Raise ValueError
  | None => Raise ValueError
  end.

(** [strftime("%H:%M")], [strftime("%m/%d %H:%M")], [strftime("%Y-%m")]. *)
Definition strftime_HM (d : datetime) : string :=
  pad 2 (hour d) ++ ":" ++ pad 2 (minute d).

Definition strftime_md_HM (d : datetime) : string :=
  pad 2 (month d) ++ "/" ++ pad 2 (day d) ++ " " ++ strftime_HM d.

Definition strftime_Ym (d : datetime) : string :=
  pad 4 (year d) ++ "-" ++ pad 2 (month d).

End Datetime.

Abbreviation datetime := Datetime.datetime.

(** * Domain model *)

(** ** The two enumerations *)

Inductive RecordType : Type := INCOME | EXPENSE.

Inductive PaymentMethod : Type := CASH | WECHAT | ALIPAY | BANK_CARD.

(** The [.value] of a member. *)
Definition RecordType_value (t : RecordType) : string :=
  match t with
  | INCOME => "收入"
  | EXPENSE => "支出"
  end.

Definition PaymentMethod_value (p : PaymentMethod) : string :=
  match p with
  | CASH => "现金"
  | WECHAT => "微信"
  | ALIPAY => "支付宝"
  | BANK_CARD => "银行卡"
  end.

(** The members in definition order. *)
Definition RecordType_members : list RecordType := [INCOME; EXPENSE].

Definition PaymentMethod_members : list PaymentMethod :=
  [CASH; WECHAT; ALIPAY; BANK_CARD].

(** [EnumClass(value)]: the member with that value, [ValueError] when
    there is none. *)
Definition enum_lookup {E} (value_of : E -> string) (members : list E)
    (v : string) : result E :=
  match List.find (fun m => String.eqb (value_of m) v) members with
  | Some m => Ok m
  | None => Raise ValueError
  end.

Definition RecordType_of_value : string -> result RecordType :=
  enum_lookup RecordType_value RecordType_members.

Definition PaymentMethod_of_value : string -> result PaymentMethod :=
  enum_lookup PaymentMethod_value PaymentMethod_members.

(** ** Amounts *)

(** What the program does with an amount: it starts sums at [0.0], adds,
    and writes [x or 0.0], which tests the truth value of [x]. What the
    store does with it: [sqlite3] binds the float that is not a number as
    NULL, every other float as itself. *)
Class Amount (A : Type) : Type := {
  amount_zero : A;
  amount_add : A -> A -> A;
  amount_truthy : A -> bool;
  amount_nan : A -> bool
}.

(** Addition that does not round: the sum of a list does not depend on
    the order of its elements, and only zero is false. Integers (amounts in
    minor units) and rationals are of this kind, binary floating point is
    not. *)
Class ExactAmount (A : Type) `{Amount A} : Prop := {
  amount_add_assoc : forall a b c : A,
    amount_add a (amount_add b c) = amount_add (amount_add a b) c;
  amount_add_comm : forall a b : A, amount_add a b = amount_add b a;
  amount_add_zero_l : forall a : A, amount_add amount_zero a = a;
  amount_falsy_zero : forall a : A, amount_truthy a = false -> a = amount_zero
}.

Global Instance Z_Amount : Amount Z := {
  amount_zero := 0;
  amount_add := Z.add;
  amount_truthy := fun a => negb (a =? 0);
  amount_nan := fun _ => false
}.

(** Python's [float]: binary64 with its rounding addition; a float is
    false when it equals zero. (A negative zero is read back from a [REAL]
    column as zero; [==] does not tell the two apart.) *)
Global Instance float_Amount : Amount float := {
  amount_zero := PrimFloat.zero;
  amount_add := PrimFloat.add;
  amount_truthy := fun a => negb (PrimFloat.eqb a PrimFloat.zero);
  amount_nan := PrimFloat.is_nan
}.

(** [x or d]. *)
Definition py_or {A} `{Amount A} (x d : A) : A :=
  if amount_truthy x then x else d.

(** ** Categories and records *)

(** Fields read back from the database may be [None]: the category
    columns of a row without a matching category, a note stored as NULL. *)
Record Category : Type := mkCategory {
  category_id : option Z;
  name : option string;
  icon : option string;
  color : option string
}.

Record Record_ (A : Type) : Type := mkRecord {
  record_id : Z;
  amount : A;
  record_type : RecordType;
  category : Category;
  payment_method : PaymentMethod;
  note : option string;
  record_date : datetime
}.
Arguments mkRecord {A}.
Arguments record_id {A}.
Arguments amount {A}.
Arguments record_type {A}.
Arguments category {A}.
Arguments payment_method {A}.
Arguments note {A}.
Arguments record_date {A}.

(** [Record.__init__]: a missing date is replaced by the current time. *)
Definition Record_init {A} (now : datetime) (record_id : Z) (amount : A)
    (record_type : RecordType) (category : Category)
    (payment_method : PaymentMethod) (note : option string)
    (record_date : option datetime) : Record_ A :=
  mkRecord record_id amount record_type category payment_method note
           (default now record_date).

Definition get_formatted_date {A} (self : Record_ A) : string :=
  Datetime.strftime_md_HM (record_date self).

(** [get_formatted_time], with the clock reading [now] made explicit. The
    second comparison is only evaluated when the first one fails. *)
Definition get_formatted_time {A} (now : datetime) (self : Record_ A)
    : result string :=
  if Datetime.date_eqb (Datetime.date (record_date self)) (Datetime.date now)
  then Ok ("今天 " ++ Datetime.strftime_HM (record_date self))
  else
    yesterday ← Datetime.replace_day now (Datetime.day now - 1);
    if Datetime.date_eqb (Datetime.date (record_date self))
                         (Datetime.date yesterday)
    then Ok ("昨天 " ++ Datetime.strftime_HM (record_date self))
    else Ok (Datetime.strftime_md_HM (record_date self)).

(** * The database file *)

(** Texts are kept as their UTF-8 bytes. A Python [str] may hold a lone
    surrogate (U+D800 to U+DFFF), which has no UTF-8 encoding; it is kept
    as the three bytes that the [surrogatepass] handler writes for it: the
    byte 237 followed by a byte from 160 to 191, a pair that occurs in no
    encoding of a text without surrogates. *)
Fixpoint has_surrogate (text : string) : bool :=
  match text with
  | EmptyString => false
  | String c rest =>
      (Ascii.eqb c (ascii_of_nat 237)
       && match rest with
          | String d _ => (160 <=? nat_of_ascii d)%nat
                          && (nat_of_ascii d <=? 191)%nat
          | EmptyString => false
          end)
      || has_surrogate rest
  end.

(** A row of [records]: [amount], [type], [payment_method] and
    [record_date] are [NOT NULL], the other two columns are nullable. *)
Record record_row (A : Type) : Type := mkRow {
  row_id : Z;
  row_amount : A;
  row_type : string;
  row_category_id : option Z;
  row_payment_method : string;
  row_note : option string;
  row_record_date : string
}.
Arguments mkRow {A}.
Arguments row_id {A}.
Arguments row_amount {A}.
Arguments row_type {A}.
Arguments row_category_id {A}.
Arguments row_payment_method {A}.
Arguments row_note {A}.
Arguments row_record_date {A}.

(** A row of [categories] without its primary key. *)
Record category_row : Type := mkCat {
  cat_name : string;
  cat_icon : option string;
  cat_color : option string
}.

(** The tables of an opened file. A table that was never created is
    [None]. [records] is kept in rowid order, the order of a table scan;
    [categories] is keyed by its primary key. [sequence] is the entry of
    [sqlite_sequence] for [records], from which [AUTOINCREMENT]
    continues: the largest id handed out so far, also when its row has
    been deleted since; 0 when there is no entry. *)
Record database (A : Type) : Type := mkDb {
  records : option (list (record_row A));
  categories : option (gmap Z category_row);
  sequence : Z
}.
Arguments mkDb {A}.
Arguments records {A}.
Arguments categories {A}.
Arguments sequence {A}.

(** What [db_path] designates: something [sqlite3.connect] cannot open, or
    a database. Connecting to a path where there is no file yet creates
    the empty database [fresh]. *)
Inductive storage (A : Type) : Type :=
  | Unavailable
  | Available (db : database A).
Arguments Unavailable {A}.
Arguments Available {A} db.

Definition fresh {A} : storage A := Available (mkDb None None 0).

(** * The ledger store: [RecordManager] *)

Section RecordManager.

Context {A : Type} `{Amount A}.

(** ** The SQL engine *)

Definition connect (s : storage A) : result (database A) :=
  match s with
  | Unavailable => Raise OperationalError
  | Available db => Ok db
  end.

(** [FROM records], [FROM categories]: the table has to exist. *)
Definition from_records (db : database A) : result (list (record_row A)) :=
  match records db with
  | Some rows => Ok rows
  | None => Raise OperationalError
  end.

Definition from_categories (db : database A) : result (gmap Z category_row) :=
  match categories db with
  | Some cats => Ok cats
  | None => Raise OperationalError
  end.

(** [x BETWEEN lo AND hi] on text: byte-wise order, both ends included. *)
Definition between (x lo hi : string) : bool :=
  String.leb lo x && String.leb x hi.

(** [ORDER BY record_date DESC]: a row comes before every row with a
    smaller date; rows with equal dates stay in table order. *)
Definition date_desc (r1 r2 : record_row A) : Prop :=
  Is_true (String.leb (row_record_date r2) (row_record_date r1)).

Global Instance date_desc_dec r1 r2 : Decision (date_desc r1 r2).
Proof. unfold date_desc. apply _. Defined.

(** One step of the sort: the row goes behind the rows with a greater
    date and before the first row whose date is not greater. *)
Fixpoint insert_by_date (r : record_row A) (sorted : list (record_row A))
    : list (record_row A) :=
  match sorted with
  | [] => [r]
  | r' :: rest =>
      if decide (date_desc r r') then r :: r' :: rest
      else r' :: insert_by_date r rest
  end.

Definition order_by_record_date_desc
    (rows : list (record_row A)) : list (record_row A) :=
  foldr insert_by_date [] rows.

(** [LIMIT n] with [n] spelled as a decimal literal: a negative count
    means no limit, a literal outside the 64-bit range is not an integer
    and the statement fails with a datatype mismatch. *)
Definition sql_limit (n : Z) (rows : list (record_row A))
    : result (list (record_row A)) :=
  if (n <? - 2 ^ 63) || (2 ^ 63 - 1 <? n) then Raise IntegrityError
  else if n <? 0 then Ok rows
  else Ok (take (Z.to_nat n) rows).

(** [SUM(amount)] over the rows of one group. *)
Definition sql_sum (l : list A) : A := foldl amount_add amount_zero l.

(** [SELECT type, SUM(amount) ... GROUP BY type]: one result row per
    distinct type. *)
Definition sum_group_by_type (rows : list (record_row A))
    : list (string * A) :=
  (fun t => (t, sql_sum (row_amount <$>
               filter (fun r => row_type r = t) rows)))
  <$> remove_dups (row_type <$> rows).

(** [LEFT JOIN categories c ON r.category_id = c.id]. *)
Definition left_join (cats : gmap Z category_row) (r : record_row A)
    : option category_row :=
  row_category_id r ≫= (cats !!.).

(** [SELECT c.name, r.type, SUM(r.amount) ... GROUP BY c.name, r.type]. *)
Definition sum_group_by_name_type (cats : gmap Z category_row)
    (rows : list (record_row A)) : list (option string * string * A) :=
  let key r := (cat_name <$> left_join cats r, row_type r) in
  (fun k => (k, sql_sum (row_amount <$> filter (fun r => key r = k) rows)))
  <$> remove_dups (key <$> rows).

(** [strftime('%Y-%m', text)] of the engine, on the time strings that
    [add_record] writes: the year and the month of the text. The engine
    reads further time strings (a date alone, a space as separator, a
    day beyond the end of the month, which it carries over); they are
    NULL here, so the monthly summary is modelled for files whose dates
    [isoformat] wrote. *)
Definition sqlite_strftime_Ym (s : string) : option string :=
  match Datetime.fromisoformat s with
  | Ok d => Some (Datetime.strftime_Ym d)
  | Raise _ => None
  end.

(** ** Initialization *)

Definition default_categories : list (Z * category_row) :=
  [ (1, mkCat "美食饮品" (Some "🍔") (Some "#FF6B6B"));
    (2, mkCat "购物消费" (Some "🎒") (Some "#4ECDC4"));
    (3, mkCat "交通出行" (Some "🚗") (Some "#45B7D1"));
    (4, mkCat "娱乐休闲" (Some "🎮") (Some "#96CEB4"));
    (5, mkCat "数码家电" (Some "📱") (Some "#F7DC6F"));
    (6, mkCat "医疗健康" (Some "🏥") (Some "#BB8FCE"));
    (7, mkCat "教育培训" (Some "📚") (Some "#F1948A"));
    (8, mkCat "工资收入" (Some "💰") (Some "#52BE80"));
    (9, mkCat "投资理财" (Some "📈") (Some "#5499C7"));
    (10, mkCat "其他" (Some "📦") (Some "#95A5A6")) ].

(** [INSERT OR IGNORE INTO categories (id, ...)]: a row whose id is
    taken is skipped. *)
Definition insert_or_ignore (cats : gmap Z category_row)
    (c : Z * category_row) : gmap Z category_row :=
  match cats !! c.1 with
  | Some _ => cats
  | None => <[c.1 := c.2]> cats
  end.

Definition _insert_default_data
    (cats : gmap Z category_row) : gmap Z category_row :=
  foldl insert_or_ignore cats default_categories.

(** Both [CREATE TABLE IF NOT EXISTS], the seeding, the commit. When the
    file cannot be opened the exception is caught and nothing changes. *)
Definition _init_database (s : storage A) : storage A :=
  try_except
    (db ← connect s;
     let rows := default [] (records db) in
     let cats := default ∅ (categories db) in
     Ok (Available (mkDb (Some rows) (Some (_insert_default_data cats))
                         (sequence db))))
    (fun _ => s).

(** ** Insert *)

(** The largest 64-bit integer, the last rowid. *)
Definition max_rowid : Z := 2 ^ 63 - 1.

(** The largest rowid in the table, 0 in an empty table. *)
Definition largest_rowid (rows : list (record_row A)) : Z :=
  match row_id <$> rows with
  | [] => 0
  | id :: ids => foldr Z.max id ids
  end.

(** The largest id in use or handed out before. *)
Definition used_rowid (seq : Z) (rows : list (record_row A)) : Z :=
  Z.max seq (largest_rowid rows).

(** [id INTEGER PRIMARY KEY AUTOINCREMENT]: one more than the largest
    rowid of the table (1 in an empty table) and than the largest id
    handed out before. Once the last rowid has been used the insert
    fails: database or disk is full. *)
Definition next_rowid (seq : Z) (rows : list (record_row A)) : result Z :=
  if max_rowid <=? used_rowid seq rows then Raise OperationalError
  else Ok (1 + used_rowid seq rows).

(** Binding an [int] or [None] to a parameter: the integer has to fit
    64 bits. *)
Definition bind_integer (n : option Z) : result (option Z) :=
  match n with
  | Some i =>
      if (i <? - 2 ^ 63) || (2 ^ 63 - 1 <? i) then Raise OverflowError
      else Ok n
  | None => Ok None
  end.

(** Binding a [str] or [None] to a parameter: the text is encoded as
    UTF-8, which a lone surrogate makes fail with [UnicodeEncodeError]. *)
Definition bind_text (t : option string) : result (option string) :=
  match t with
  | Some text => if has_surrogate text then Raise ValueError else Ok t
  | None => Ok None
  end.

(** [amount REAL NOT NULL]: a float that is not a number arrives as
    NULL. *)
Definition not_null_amount (a : A) : result A :=
  if amount_nan a then Raise IntegrityError else Ok a.

Definition row_of_record (id : Z) (record : Record_ A) : record_row A :=
  mkRow id
        (amount record)
        (RecordType_value (record_type record))
        (category_id (category record))
        (PaymentMethod_value (payment_method record))
        (note record)
        (Datetime.isoformat (record_date record)).

(** The insert and the commit: the result and the new state of the
    file. The statement is prepared (the table has to exist), the
    parameters are bound in their order (the two labels and the
    [isoformat] text are always encodable), and the row is written under
    the next id, which becomes the new [sequence]. *)
Definition add_record_body (s : storage A) (record : Record_ A)
    : result (bool * storage A) :=
  db ← connect s;
  rows ← from_records db;
  _ ← bind_integer (category_id (category record));
  _ ← bind_text (note record);
  id ← next_rowid (sequence db) rows;
  _ ← not_null_amount (amount record);
  let row := row_of_record id record in
  Ok (true, Available (mkDb (Some (rows ++ [row])%list) (categories db) id)).

(** Nothing is committed when the body raises: the file stays as it
    was. *)
Definition add_record (s : storage A) (record : Record_ A)
    : bool * storage A :=
  try_except (add_record_body s record) (fun _ => (false, s)).

(** ** Reading records *)

(** The body of the [for row in cursor.fetchall()] loop. Only the
    [ValueError] of [fromisoformat] is caught here; the two enum lookups
    are not protected. *)
Definition record_of_row (now : datetime) (cats : gmap Z category_row)
    (row : record_row A) : result (Record_ A) :=
  let c := left_join cats row in
  let category :=
    mkCategory (row_category_id row) (cat_name <$> c)
               (c ≫= cat_icon) (c ≫= cat_color) in
  record_date ←
    match Datetime.fromisoformat (row_record_date row) with
    | Ok d => Ok d
    | Raise ValueError => Ok now
    | Raise e => Raise e
    end;
  rt ← RecordType_of_value (row_type row);
  pm ← PaymentMethod_of_value (row_payment_method row);
  Ok (mkRecord (row_id row) (row_amount row) rt category pm
               (row_note row) record_date).

(** The [if limit:] test: [None] and [0] add no [LIMIT] clause. *)
Definition limit_clause (limit : option Z) (rows : list (record_row A))
    : result (list (record_row A)) :=
  match limit with
  | Some n => if n =? 0 then Ok rows else sql_limit n rows
  | None => Ok rows
  end.

Definition get_all_records_body (now : datetime) (s : storage A)
    (limit : option Z) : result (list (Record_ A)) :=
  db ← connect s;
  rows ← from_records db;
  cats ← from_categories db;
  fetched ← limit_clause limit (order_by_record_date_desc rows);
  for_each (record_of_row now cats) fetched.

Definition get_all_records (now : datetime) (s : storage A)
    (limit : option Z) : list (Record_ A) :=
  try_except (get_all_records_body now s limit) (fun _ => []).

(** The [if record_type and record_type != "全部":] test: the label to
    filter on, if any. *)
Definition type_filter (record_type : option string) : option string :=
  match record_type with
  | Some t => if String.eqb t "" || String.eqb t "全部" then None else Some t
  | None => None
  end.

(** [WHERE record_date BETWEEN ? AND ?], with [AND type = ?] when a type
    is asked for. *)
Definition where_clause (start_date end_date : datetime)
    (record_type : option string) (r : record_row A) : bool :=
  between (row_record_date r)
          (Datetime.isoformat start_date) (Datetime.isoformat end_date)
  && match type_filter record_type with
     | Some t => String.eqb (row_type r) t
     | None => true
     end.

Definition get_records_by_date_range_body (now : datetime) (s : storage A)
    (start_date end_date : datetime) (record_type : option string)
    : result (list (Record_ A)) :=
  db ← connect s;
  rows ← from_records db;
  cats ← from_categories db;
  let fetched :=
    order_by_record_date_desc
      (filter (fun r => where_clause start_date end_date record_type r = true)
              rows) in
  for_each (record_of_row now cats) fetched.

Definition get_records_by_date_range (now : datetime) (s : storage A)
    (start_date end_date : datetime) (record_type : option string)
    : list (Record_ A) :=
  try_except
    (get_records_by_date_range_body now s start_date end_date record_type)
    (fun _ => []).

(** ** Summaries *)

(** [{"收入": 0.0, "支出": 0.0}]. *)
Definition zero_totals : gmap string A :=
  <["收入" := amount_zero]> (<["支出" := amount_zero]> ∅).

(** [for row in cursor.fetchall(): result[row[0]] = row[1] or 0.0]. *)
Definition store_totals (result : gmap string A) (fetched : list (string * A))
    : gmap string A :=
  foldl (fun m row => <[row.1 := py_or row.2 amount_zero]> m) result fetched.

Definition get_summary_by_date_range_body (s : storage A)
    (start_date end_date : datetime) (record_type : option string)
    : result (gmap string A) :=
  db ← connect s;
  rows ← from_records db;
  let fetched :=
    sum_group_by_type
      (filter (fun r => where_clause start_date end_date record_type r = true)
              rows) in
  let result := store_totals zero_totals fetched in
  match type_filter record_type with
  | Some t => Ok {[ t := default amount_zero (result !! t) ]}
  | None => Ok result
  end.

Definition get_summary_by_date_range (s : storage A)
    (start_date end_date : datetime) (record_type : option string)
    : gmap string A :=
  try_except
    (get_summary_by_date_range_body s start_date end_date record_type)
    (fun _ => zero_totals).

(** The loop of [get_category_summary]: a category seen for the first
    time starts from the zero totals. *)
Definition store_category_totals
    (result : gmap (option string) (gmap string A))
    (fetched : list (option string * string * A))
    : gmap (option string) (gmap string A) :=
  foldl (fun m row =>
           let '(category_name, record_type_val, amount) := row in
           let totals := default zero_totals (m !! category_name) in
           <[category_name :=
               <[record_type_val := py_or amount amount_zero]> totals]> m)
        result fetched.

Definition get_category_summary_body (s : storage A)
    (start_date end_date : datetime) (record_type : option string)
    : result (gmap (option string) (gmap string A)) :=
  db ← connect s;
  rows ← from_records db;
  cats ← from_categories db;
  let fetched :=
    sum_group_by_name_type cats
      (filter (fun r => where_clause start_date end_date record_type r = true)
              rows) in
  Ok (store_category_totals ∅ fetched).

Definition get_category_summary (s : storage A)
    (start_date end_date : datetime) (record_type : option string)
    : gmap (option string) (gmap string A) :=
  try_except
    (get_category_summary_body s start_date end_date record_type)
    (fun _ => ∅).

Definition get_monthly_summary_body (now : datetime) (s : storage A)
    : result (gmap string A) :=
  db ← connect s;
  rows ← from_records db;
  let current_month := Datetime.strftime_Ym now in
  let fetched :=
    sum_group_by_type
      (filter (fun r => sqlite_strftime_Ym (row_record_date r)
                        = Some current_month) rows) in
  Ok (store_totals zero_totals fetched).

Definition get_monthly_summary (now : datetime) (s : storage A)
    : gmap string A :=
  try_except (get_monthly_summary_body now s) (fun _ => zero_totals).

End RecordManager.

(** * Well-formed stores *)

Definition RecordType_labels : list string :=
  RecordType_value <$> RecordType_members.

Definition PaymentMethod_labels : list string :=
  PaymentMethod_value <$> PaymentMethod_members.

(** The row carries labels of the two enumerations, as every row written
    by [add_record] does. *)
Definition known_labels {A} (r : record_row A) : bool :=
  bool_decide (row_type r ∈ RecordType_labels)
  && bool_decide (row_payment_method r ∈ PaymentMethod_labels).

(** The rows and categories of a store, empty where the file cannot be
    opened or the table is missing. *)
Definition stored_records {A} (s : storage A) : list (record_row A) :=
  match s with
  | Available db => default [] (records db)
  | Unavailable => []
  end.

Definition stored_categories {A} (s : storage A) : gmap Z category_row :=
  match s with
  | Available db => default ∅ (categories db)
  | Unavailable => ∅
  end.



(** What [sqlite3] can bind and the table can hold of a record: a
    category id of at most 64 bits, a note without lone surrogates, an
    amount that is a number. *)
Definition fits_int64 (n : option Z) : bool :=
  match n with
  | Some i => (- 2 ^ 63 <=? i) && (i <=? 2 ^ 63 - 1)
  | None => true
  end.

Definition encodable (t : option string) : bool :=
  match t with
  | Some text => negb (has_surrogate text)
  | None => true
  end.

Definition storable {A} `{Amount A} (record : Record_ A) : bool :=
  fits_int64 (category_id (category record))
  && encodable (note record)
  && negb (amount_nan (amount record)).

(** An initialized store: the file opens and both tables exist. *)
Definition initialized {A} (s : storage A) : bool :=
  match s with
  | Available (mkDb (Some _) (Some _) _) => true
  | _ => false
  end.

(** An initialized store all of whose rows carry known labels: the
    stores that initialization and [add_record] build. *)
Definition store_ok {A} (s : storage A) : bool :=
  initialized s && forallb known_labels (stored_records s).

(** The total of type [k] among [rows], as [GROUP BY type] computes it. *)
Definition type_total {A} `{Amount A} (k : string)
    (rows : list (record_row A)) : A :=
  sql_sum (row_amount <$> filter (fun r => row_type r = k) rows).

(** The stored date is the [isoformat] of a datetime, as [add_record]
    writes it. *)
Definition iso_date {A} (r : record_row A) : bool :=
  match Datetime.fromisoformat (row_record_date r) with
  | Ok d => String.eqb (Datetime.isoformat d) (row_record_date r)
  | Raise _ => false
  end.

(** Most recent first. *)
Definition newest_first {A} (R1 R2 : Record_ A) : Prop :=
  Datetime.leb (record_date R2) (record_date R1) = true.


(** * Example ledgers *)

Definition example_now : datetime := Datetime.mk 2024 3 1 9 5 0 0.

Definition example_start : datetime := Datetime.mk 2024 2 1 0 0 0 0.

Definition example_end : datetime := Datetime.mk 2024 2 29 23 59 59 0.

(** Amounts of the examples are in minor units. *)
Definition supermarket : Record_ Z :=
  mkRecord 0 25680 EXPENSE (mkCategory (Some 2) None None None) ALIPAY
           (Some "supermarket") (Datetime.mk 2024 2 10 18 30 0 0).

Definition salary : Record_ Z :=
  mkRecord 0 660000 INCOME (mkCategory (Some 8) None None None) WECHAT
           (Some "salary") (Datetime.mk 2024 2 28 9 0 0 0).

(** A new file, initialized, then the two inserts. *)
Definition example_store : storage Z :=
  (add_record (add_record (_init_database fresh) supermarket).2 salary).2.

(** An initialized file with one row that some other writer left: its
    payment method is no label of [PaymentMethod]. *)
Definition foreign_store : storage Z :=
  Available
    (mkDb (Some [mkRow 1 500 "支出" (Some 2) "Bitcoin" (Some "coffee")
                       "2024-02-10T10:00:00"])
          (Some (_insert_default_data ∅))
          1).




(** * The application around the store *)

(** What the windows need of an amount besides the store's operations:
    the amounts that the source writes as decimal literals with two
    places ([256.80] is [amount_of_cents 25680]), each of which is a
    number, and the test [amount <= 0]. *)
Class Money (A : Type) `{Amount A} : Type := {
  amount_of_cents : Z -> A;
  amount_le_zero : A -> bool;
  amount_of_cents_number : forall c, amount_nan (amount_of_cents c) = false
}.

Global Instance Z_Money : Money Z := {
  amount_of_cents := fun c => c;
  amount_le_zero := fun a => a <=? 0;
  amount_of_cents_number := fun _ => eq_refl
}.

(** ** The amount entry of the record dialog *)

Section AmountEntry.

(** The text of an entry is a sequence of characters; [isdigit] is the
    character test of that name and [dot] the character ['.']. *)
Context {char : Type} `{EqDecision char} (isdigit : char -> bool) (dot : char).

(** [text.count('.')]. *)
Definition count_dot (text : list char) : nat :=
  length (filter (fun c => c = dot) text).

(** [text.split('.')]: the pieces between the dots, at least one piece. *)
Fixpoint split_dot (text : list char) : list (list char) :=
  match text with
  | [] => [[]]
  | c :: text' =>
      if decide (c = dot) then [] :: split_dot text'
      else match split_dot text' with
           | piece :: pieces => (c :: piece) :: pieces
           | [] => [[c]]
           end
  end.

(** A character that the entry keeps. *)
Definition amount_char (c : char) : Prop := isdigit c = true \/ c = dot.

Global Instance amount_char_dec c : Decision (amount_char c).
Proof. unfold amount_char. apply _. Defined.

(** A text as the entry accepts it: digits and at most one dot, with at
    most two characters after the dot. *)
Definition amount_text (text : list char) : Prop :=
  Forall amount_char text /\
  (count_dot text <= 1)%nat /\
  forall p d, text = (p ++ dot :: d)%list -> (length d <= 2)%nat.

(** The text that [_on_amount_change] leaves in the entry: digits and
    dots are kept, the dots after the first one are dropped, and the
    decimal part is cut to two places. The unpacking of
    [filtered_text.split('.')] into two names raises [ValueError] unless
    there are exactly two pieces. *)
Definition _on_amount_change (current_text : list char)
    : result (list char) :=
  let filtered_text :=
    filter amount_char current_text in
  let filtered_text :=
    if (1 <? count_dot filtered_text)%nat then
      let parts := split_dot filtered_text in
      (default [] (head parts) ++ [dot] ++ concat (tail parts))%list
    else filtered_text in
  if decide (dot ∈ filtered_text) then
    match split_dot filtered_text with
    | [integer_part; decimal_part] =>
        if (2 <? length decimal_part)%nat
        then Ok (integer_part ++ [dot] ++ take 2 decimal_part)%list
        else Ok filtered_text
    | _ => Raise ValueError
    end
  else Ok filtered_text.

End AmountEntry.

(** ** The record dialog, the main window *)

(** What [_save_record] reads from the dialog: the selected category, the
    amount, and the texts of the type, payment and note widgets. *)
Record CompactRecordDialog (A : Type) : Type := mkDialog {
  selected_category : option Category;
  dialog_amount : A;
  type_var : string;
  payment_var : string;
  note_entry : string
}.
Arguments mkDialog {A}.
Arguments selected_category {A}.
Arguments dialog_amount {A}.
Arguments type_var {A}.
Arguments payment_var {A}.
Arguments note_entry {A}.

(** The message box that [_save_record] shows. *)
Inductive save_message : Type :=
  | NoCategory              (* "请选择分类" *)
  | AmountNotPositive       (* "金额必须大于0" *)
  | Saved                   (* "记录保存成功"; the dialog closes *)
  | SaveFailed              (* "保存记录失败" *)
  | SaveError (e : exn).    (* "保存记录时发生错误: ..." *)

(** How a step of the start-up ends: normally, with the [IndexError] of
    an index into the list of categories, or with an exception of the
    store's kind. *)
Inductive outcome : Type :=
  | Finished
  | RaisedIndexError
  | Raised (e : exn).

Definition outcome_of {T} (r : result T) : outcome :=
  match r with
  | Ok _ => Finished
  | Raise e => Raised e
  end.

(** The readings of the clock during one drawing of the list of recent
    transactions: one when the records are read, one for each item. *)
Record readings : Type := mkReadings {
  at_query : datetime;
  at_item : nat -> datetime
}.

(** The order of a scan of [categories]: by primary key. *)
Definition id_le (a b : Z * category_row) : Prop := a.1 <= b.1.

Global Instance id_le_dec a b : Decision (id_le a b).
Proof. unfold id_le. apply _. Defined.

Section Application.

Context {A : Type} `{Amount A} `{!Money A}.

Definition note_placeholder : string := "添加备注（可选）".

(** The record that [_save_record] builds; [PaymentMethod(...)] may
    raise. The date is left out, so it is the current time. *)
Definition dialog_record (now : datetime) (self : CompactRecordDialog A)
    (category : Category) : result (Record_ A) :=
  let record_type :=
    if String.eqb (type_var self) "收入" then INCOME else EXPENSE in
  payment ← PaymentMethod_of_value (payment_var self);
  let note :=
    if String.eqb (note_entry self) note_placeholder then ""
    else note_entry self in
  Ok (Record_init now 0 (dialog_amount self) record_type category payment
                  (Some note) None).

(** [_save_record]: the message shown and the state of the file
    afterwards. *)
Definition _save_record (now : datetime) (self : CompactRecordDialog A)
    (s : storage A) : save_message * storage A :=
  match selected_category self with
  | None => (NoCategory, s)
  | Some category =>
      if amount_le_zero (dialog_amount self) then (AmountNotPositive, s)
      else
        try_except
          (record ← dialog_record now self category;
           let '(ok, s') := add_record s record in
           Ok (if ok then Saved else SaveFailed, s'))
          (fun e => (SaveError e, s))
  end.

(** [SELECT id, name, icon, color FROM categories]: there is no
    [ORDER BY]; the scan walks the table, which SQLite keeps in the order
    of its integer primary key. *)
Definition select_categories (cats : gmap Z category_row)
    : list (Z * category_row) :=
  merge_sort id_le (map_to_list cats).

(** [_load_categories]; its bare [except:] turns every failure into the
    empty list. *)
Definition _load_categories (s : storage A) : list Category :=
  try_except
    (db ← connect s;
     cats ← from_categories db;
     Ok ((fun row => mkCategory (Some row.1) (Some (cat_name row.2))
                                (cat_icon row.2) (cat_color row.2))
         <$> select_categories cats))
    (fun _ => []).

(** The time labels that [refresh_transactions] puts into the list of
    recent transactions: one [get_formatted_time] per record, for the
    first ten records of [get_all_records()]; an exception of
    [get_formatted_time] is not caught. *)
Definition refresh_transactions (clock : readings) (s : storage A)
    : result (list string) :=
  for_each (fun item => get_formatted_time (at_item clock item.1) item.2)
           (imap pair (take 10 (get_all_records (at_query clock) s None))).

(** The list of the four samples, built from the categories at the
    indexes 1, 7, 0 and 3 before any record is made: [None] stands for
    the [IndexError]. *)
Definition sample_records (categories : list Category)
    : option (list (A * RecordType * Category * PaymentMethod * string)) :=
  c1 ← categories !! 1%nat;
  c7 ← categories !! 7%nat;
  c0 ← categories !! 0%nat;
  c3 ← categories !! 3%nat;
  Some [ (amount_of_cents 25680, EXPENSE, c1, ALIPAY, "超市购物");
         (amount_of_cents 660000, INCOME, c7, WECHAT, "工资");
         (amount_of_cents 12800, EXPENSE, c0, WECHAT, "晚餐");
         (amount_of_cents 3900, EXPENSE, c3, CASH, "电影票") ].

(** The loop over the samples: each record is made at its own reading
    of the clock and stored; the result of [add_record] is not looked
    at. *)
Fixpoint add_samples (created : nat -> datetime) (s : storage A)
    (samples : list (A * RecordType * Category * PaymentMethod * string))
    : storage A :=
  match samples with
  | [] => s
  | (amount, rtype, category, payment, note) :: samples =>
      let record :=
        Record_init (created 0%nat) 0 amount rtype category payment
                    (Some note) None in
      add_samples (fun k => created (S k)) (add_record s record).2 samples
  end.

(** [_create_sample_data]: the samples are stored when
    [get_all_records()] returns nothing; then the list is drawn. *)
Definition _create_sample_data (now : datetime) (created : nat -> datetime)
    (clock : readings) (categories : list Category) (s : storage A)
    : outcome * storage A :=
  match get_all_records now s None with
  | [] =>
      match sample_records categories with
      | Some samples =>
          let s := add_samples created s samples in
          (outcome_of (refresh_transactions clock s), s)
      | None => (RaisedIndexError, s)
      end
  | _ :: _ => (outcome_of (refresh_transactions clock s), s)
  end.

(** [MainApp.__init__], as far as the file and the exceptions go: the
    store is initialized by [RecordManager()], the categories are loaded,
    the samples are created, and the list is drawn once more. The
    widgets are left out; [update_balance], between the two drawings,
    reads [get_monthly_summary()], which raises nothing, and writes
    nothing. *)
Definition MainApp_init (now : datetime) (created : nat -> datetime)
    (clock clock' : readings) (s : storage A) : outcome * storage A :=
  let s := _init_database s in
  let categories := _load_categories s in
  match _create_sample_data now created clock categories s with
  | (Finished, s) => (outcome_of (refresh_transactions clock' s), s)
  | stopped => stopped
  end.

End Application.

(** ** Totals by category *)




(** * Facts about datetimes *)

Module DatetimeFacts.
Import Datetime.

Lemma digit_val_char (d : Z) :
  0 <= d <= 9 -> digit_val (digit_char d) = Some d.
Proof.
  intros Hd.
  assert (Hcases : d = 0 \/ d = 1 \/ d = 2 \/ d = 3 \/ d = 4 \/
                   d = 5 \/ d = 6 \/ d = 7 \/ d = 8 \/ d = 9) by lia.
  repeat (destruct Hcases as [-> | Hcases]; [reflexivity |]).
  subst d. reflexivity.
Qed.

Lemma append_cons (c : ascii) (s r : string) :
  String c s ++ r = String c (s ++ r).
Proof. reflexivity. Qed.

Lemma read_digits_pad (n : nat) (k acc : Z) (rest : string) :
  read_digits n acc (pad n k ++ rest)
  = Some (acc * 10 ^ Z.of_nat n + k mod 10 ^ Z.of_nat n, rest).
Proof.
  revert acc. induction n as [| n IH]; intros acc.
  - simpl. rewrite Z.mod_1_r. do 2 f_equal. lia.
  - cbn [pad]. rewrite append_cons. cbn [read_digits].
    rewrite digit_val_char
      by (pose proof (Z.mod_pos_bound (k / 10 ^ Z.of_nat n) 10); lia).
    rewrite IH. do 2 f_equal.
    rewrite Nat2Z.inj_succ, Z.pow_succ_r by lia.
    rewrite (Z.mul_comm 10 (10 ^ Z.of_nat n)).
    rewrite Z.rem_mul_r by lia. lia.
Qed.

Lemma read_digits_field (n : nat) (k : Z) (rest : string) :
  0 <= k < 10 ^ Z.of_nat n ->
  read_digits n 0 (pad n k ++ rest) = Some (k, rest).
Proof.
  intros Hk. rewrite read_digits_pad, Z.mod_small by lia. reflexivity.
Qed.

Lemma valid_bounds (d : datetime) :
  valid d = true ->
  1 <= year d <= 9999 /\ 1 <= month d <= 12 /\
  1 <= day d <= days_in_month (year d) (month d) /\
  0 <= hour d <= 23 /\ 0 <= minute d <= 59 /\ 0 <= second d <= 59 /\
  0 <= microsecond d <= 999999.
Proof.
  unfold valid. rewrite !andb_true_iff, !Z.leb_le. tauto.
Qed.

Lemma days_in_month_le (y m : Z) : days_in_month y m <= 31.
Proof.
  unfold days_in_month.
  repeat match goal with |- context [if ?b then _ else _] => destruct b end;
    lia.
Qed.

Lemma append_empty_l (s : string) : "" ++ s = s.
Proof. reflexivity. Qed.

Lemma append_empty_r (s : string) : s ++ "" = s.
Proof. induction s as [| c s IH]; [reflexivity |]. rewrite append_cons, IH. reflexivity. Qed.

Lemma expect_head (c : ascii) (s : string) : expect c (String c s) = Some s.
Proof. unfold expect. rewrite Ascii.eqb_refl. reflexivity. Qed.

Ltac read_field :=
  rewrite ?append_cons, ?append_empty_l;
  first [ rewrite expect_head
        | rewrite read_digits_field by (simpl; lia) ];
  cbn [mbind option_bind].

Lemma parse_isoformat (d : datetime) :
  valid d = true -> parse (isoformat d) = Some d.
Proof.
  intros Hv.
  pose proof (valid_bounds d Hv) as (Hy & Hm & Hd & Hh & Hmi & Hs & Hus).
  pose proof (days_in_month_le (year d) (month d)) as Hdim.
  unfold parse, isoformat.
  do 10 read_field.
  destruct (microsecond d =? 0) eqn:Hz.
  - read_field. apply Z.eqb_eq in Hz.
    destruct d; cbn in *; subst; reflexivity.
  - rewrite <- (append_empty_r (pad 6 (microsecond d))).
    do 3 read_field. destruct d; reflexivity.
Qed.

(** [fromisoformat] undoes [isoformat]. *)
Lemma fromisoformat_isoformat (d : datetime) :
  valid d = true -> fromisoformat (isoformat d) = Ok d.
Proof.
  intros Hv. unfold fromisoformat. rewrite parse_isoformat, Hv by done.
  reflexivity.
Qed.

(** ** The text order of [isoformat] is the chronological order *)

Lemma N_of_digit_char (d : Z) :
  0 <= d <= 9 -> N_of_ascii (digit_char d) = (48 + Z.to_N d)%N.
Proof.
  intros Hd. unfold digit_char. apply N_ascii_embedding. lia.
Qed.

Lemma compare_digit_char (a b : Z) :
  0 <= a <= 9 -> 0 <= b <= 9 ->
  Ascii.compare (digit_char a) (digit_char b) = (a ?= b).
Proof.
  intros Ha Hb. unfold Ascii.compare.
  rewrite !N_of_digit_char by done.
  rewrite <- N2Z.inj_compare, !N2Z.inj_add, !Z2N.id by lia.
  apply Z.add_compare_mono_l.
Qed.

Lemma compare_cons (c1 c2 : ascii) (s1 s2 : string) :
  String.compare (String c1 s1) (String c2 s2)
  = lex (Ascii.compare c1 c2) (String.compare s1 s2).
Proof. simpl. destruct (Ascii.compare c1 c2); reflexivity. Qed.

Lemma compare_same_head (c : ascii) (s1 s2 : string) :
  String.compare (String c s1) (String c s2) = String.compare s1 s2.
Proof.
  rewrite compare_cons.
  assert (Hc : Ascii.compare c c = Eq).
  { unfold Ascii.compare. apply N.compare_refl. }
  rewrite Hc. reflexivity.
Qed.

Lemma lex_digits (p x1 x2 d1 d2 : Z) (c : comparison) :
  0 <= x1 < p -> 0 <= x2 < p ->
  lex (d1 ?= d2) (lex (x1 ?= x2) c) = lex (x1 + p * d1 ?= x2 + p * d2) c.
Proof.
  intros H1 H2.
  destruct (Z.compare_spec d1 d2) as [-> | Hlt | Hgt]; cbn [lex].
  - f_equal. destruct (Z.compare_spec x1 x2), (Z.compare_spec (x1 + p * d2) (x2 + p * d2));
      try reflexivity; lia.
  - assert (Hc : (x1 + p * d1 ?= x2 + p * d2) = Lt) by (apply Z.compare_lt_iff; nia).
    rewrite Hc. reflexivity.
  - assert (Hc : (x1 + p * d1 ?= x2 + p * d2) = Gt) by (apply Z.compare_gt_iff; nia).
    rewrite Hc. reflexivity.
Qed.

Lemma compare_pad_mod (n : nat) (a b : Z) (r1 r2 : string) :
  String.compare (pad n a ++ r1) (pad n b ++ r2)
  = lex (a mod 10 ^ Z.of_nat n ?= b mod 10 ^ Z.of_nat n)
        (String.compare r1 r2).
Proof.
  induction n as [| n IH].
  - simpl. rewrite !Z.mod_1_r. reflexivity.
  - cbn [pad]. rewrite !append_cons, compare_cons, IH.
    pose proof (Z.mod_pos_bound (a / 10 ^ Z.of_nat n) 10) as Ha.
    pose proof (Z.mod_pos_bound (b / 10 ^ Z.of_nat n) 10) as Hb.
    assert (Hp : 0 < 10 ^ Z.of_nat n) by (apply Z.pow_pos_nonneg; lia).
    pose proof (Z.mod_pos_bound a _ Hp) as Ha'.
    pose proof (Z.mod_pos_bound b _ Hp) as Hb'.
    rewrite compare_digit_char by lia.
    rewrite Nat2Z.inj_succ, Z.pow_succ_r by lia.
    rewrite (Z.mul_comm 10 (10 ^ Z.of_nat n)).
    rewrite !Z.rem_mul_r by lia.
    apply lex_digits; lia.
Qed.

Lemma compare_pad (n : nat) (a b : Z) (r1 r2 : string) :
  0 <= a < 10 ^ Z.of_nat n -> 0 <= b < 10 ^ Z.of_nat n ->
  String.compare (pad n a ++ r1) (pad n b ++ r2)
  = lex (a ?= b) (String.compare r1 r2).
Proof.
  intros Ha Hb. rewrite compare_pad_mod, !Z.mod_small by lia. reflexivity.
Qed.

Lemma compare_isoformat (a b : datetime) :
  valid a = true -> valid b = true ->
  String.compare (isoformat a) (isoformat b) = compare a b.
Proof.
  intros Ha Hb.
  pose proof (valid_bounds a Ha) as (? & ? & ? & ? & ? & ? & Husa).
  pose proof (valid_bounds b Hb) as (? & ? & ? & ? & ? & ? & Husb).
  pose proof (days_in_month_le (year a) (month a)).
  pose proof (days_in_month_le (year b) (month b)).
  unfold isoformat, compare.
  repeat (rewrite compare_pad by (simpl; lia); f_equal;
          rewrite ?append_cons, ?append_empty_l, ?compare_same_head).
  destruct (Z.eqb_spec (microsecond a) 0) as [Hza | Hza],
           (Z.eqb_spec (microsecond b) 0) as [Hzb | Hzb].
  - rewrite Hza, Hzb. reflexivity.
  - rewrite Hza. symmetry. apply Z.compare_lt_iff. lia.
  - rewrite Hzb. symmetry. apply Z.compare_gt_iff. lia.
  - rewrite compare_same_head.
    rewrite <- (append_empty_r (pad 6 (microsecond a))).
    rewrite <- (append_empty_r (pad 6 (microsecond b))).
    rewrite compare_pad by (simpl; lia).
    destruct (microsecond a ?= microsecond b); reflexivity.
Qed.

(** The comparison that [BETWEEN] and [ORDER BY] make on the stored
    text is the comparison of the datetimes. *)
Lemma leb_isoformat (a b : datetime) :
  valid a = true -> valid b = true ->
  String.leb (isoformat a) (isoformat b) = leb a b.
Proof.
  intros Ha Hb. unfold String.leb, leb.
  rewrite compare_isoformat by done. reflexivity.
Qed.
End DatetimeFacts.

(** * The enumerations are closed *)

Lemma enum_lookup_spec {E} (value_of : E -> string) (members : list E)
    (v : string) :
  match enum_lookup value_of members v with
  | Ok m => m ∈ members /\ value_of m = v
  | Raise e => e = ValueError /\ v ∉ value_of <$> members
  end.
Proof.
  unfold enum_lookup.
  destruct (List.find _ members) as [m |] eqn:Hfind.
  - apply List.find_some in Hfind as [Hin Heq].
    apply String.eqb_eq in Heq. split; [| done].
    by apply list_elem_of_In.
  - split; [done |]. intros (m & -> & Hin)%list_elem_of_fmap.
    apply list_elem_of_In in Hin.
    apply (List.find_none _ _ Hfind) in Hin.
    by rewrite String.eqb_refl in Hin.
Qed.



Lemma RecordType_of_value_value (t : RecordType) :
  RecordType_of_value (RecordType_value t) = Ok t.
Proof. destruct t; reflexivity. Qed.

Lemma PaymentMethod_of_value_value (p : PaymentMethod) :
  PaymentMethod_of_value (PaymentMethod_value p) = Ok p.
Proof. destruct p; reflexivity. Qed.

(** C9. A text outside the label set of an enumeration is rejected with
    [ValueError], never mapped to a default member; a text inside the set
    is mapped to the one member that carries it. Stated for [RecordType]
    and for [PaymentMethod]: the lookup returns [t] exactly when [t]'s
    label is the text, and raises exactly when the text is no label. *)
Theorem enum_lookup_closed (v : string) :
  (forall t, RecordType_of_value v = Ok t <-> RecordType_value t = v) /\
  (RecordType_of_value v = Raise ValueError <-> v ∉ RecordType_labels) /\
  (forall p, PaymentMethod_of_value v = Ok p <-> PaymentMethod_value p = v) /\
  (PaymentMethod_of_value v = Raise ValueError <-> v ∉ PaymentMethod_labels).
Proof.
  pose proof (enum_lookup_spec RecordType_value RecordType_members v) as HR.
  pose proof (enum_lookup_spec PaymentMethod_value PaymentMethod_members v) as HP.
  fold RecordType_of_value RecordType_labels in HR.
  fold PaymentMethod_of_value PaymentMethod_labels in HP.
  repeat split.
  - intros Heq. rewrite Heq in HR. tauto.
  - intros <-. apply RecordType_of_value_value.
  - intros Heq. rewrite Heq in HR. tauto.
  - intros Hnot. destruct (RecordType_of_value v) as [t | e].
    + destruct HR as [_ <-]. exfalso. apply Hnot.
      apply list_elem_of_fmap. exists t. split; [done |].
      apply list_elem_of_In. destruct t; simpl; tauto.
    + destruct HR as [-> _]. reflexivity.
  - intros Heq. rewrite Heq in HP. tauto.
  - intros <-. apply PaymentMethod_of_value_value.
  - intros Heq. rewrite Heq in HP. tauto.
  - intros Hnot. destruct (PaymentMethod_of_value v) as [p | e].
    + destruct HP as [_ <-]. exfalso. apply Hnot.
      apply list_elem_of_fmap. exists p. split; [done |].
      apply list_elem_of_In. destruct p; simpl; tauto.
    + destruct HP as [-> _]. reflexivity.
Qed.

(** * The relative-date label *)

Lemma date_eqb_eq (a b : Z * Z * Z) : Datetime.date_eqb a b = true <-> a = b.
Proof.
  destruct a as [[y1 m1] d1], b as [[y2 m2] d2]. unfold Datetime.date_eqb.
  rewrite !andb_true_iff, !Z.eqb_eq. split.
  - intros [[-> ->] ->]. reflexivity.
  - intros [= -> -> ->]. done.
Qed.

Lemma replace_day_zero (now : datetime) :
  Datetime.replace_day now 0 = Raise ValueError.
Proof.
  unfold Datetime.replace_day, Datetime.valid. cbn [Datetime.day].
  change (1 <=? 0) with false.
  rewrite !andb_false_r. reflexivity.
Qed.

(** C8. "Yesterday" is computed as [now.replace(day=now.day - 1)]. On the
    first day of a month this asks for day 0: for every such [now] and
    every record that is not dated today, [get_formatted_time] raises
    [ValueError] instead of producing a label. *)
Theorem get_formatted_time_first_of_month {A} (now : datetime)
    (self : Record_ A) :
  Datetime.day now = 1 ->
  Datetime.date (record_date self) <> Datetime.date now ->
  get_formatted_time now self = Raise ValueError.
Proof.
  intros Hday Hdate. unfold get_formatted_time.
  destruct (Datetime.date_eqb _ _) eqn:Heq.
  - apply date_eqb_eq in Heq. contradiction.
  - rewrite Hday. change (1 - 1) with 0. rewrite replace_day_zero. reflexivity.
Qed.

Lemma get_formatted_time_first_of_month_witness :
  get_formatted_time (Datetime.mk 2024 3 1 9 5 0 0)
    (mkRecord 7 25680 EXPENSE (mkCategory (Some 2) None None None) ALIPAY
              (Some "supermarket") (Datetime.mk 2024 2 29 10 0 0 0))
  = Raise ValueError.
Proof.
  apply get_formatted_time_first_of_month.
  - reflexivity.
  - discriminate.
Defined.

(** * Initialization *)

Section Initialization.

Context {A : Type} `{Amount A}.

Lemma insert_or_ignore_subseteq (cats : gmap Z category_row)
    (c : Z * category_row) :
  cats ⊆ insert_or_ignore cats c.
Proof.
  unfold insert_or_ignore. destruct (cats !! c.1) eqn:Hc; [done |].
  by apply insert_subseteq.
Qed.

Lemma insert_or_ignore_present (cats : gmap Z category_row)
    (c : Z * category_row) :
  is_Some (cats !! c.1) -> insert_or_ignore cats c = cats.
Proof. intros [x Hx]. unfold insert_or_ignore. by rewrite Hx. Qed.

Lemma insert_or_ignore_lookup (cats : gmap Z category_row)
    (c : Z * category_row) :
  is_Some (insert_or_ignore cats c !! c.1).
Proof.
  unfold insert_or_ignore. destruct (cats !! c.1) eqn:Hc.
  - by rewrite Hc.
  - rewrite lookup_insert_eq. by eexists.
Qed.

Lemma seed_subseteq (l : list (Z * category_row))
    (cats : gmap Z category_row) :
  cats ⊆ foldl insert_or_ignore cats l.
Proof.
  revert cats. induction l as [| c l IH]; intros cats; [done |].
  simpl. etrans; [apply insert_or_ignore_subseteq | apply IH].
Qed.

Lemma seed_present (l : list (Z * category_row))
    (cats : gmap Z category_row) :
  Forall (fun c => is_Some (foldl insert_or_ignore cats l !! c.1)) l.
Proof.
  revert cats. induction l as [| c l IH]; intros cats; [constructor |].
  simpl. constructor; [| apply IH].
  destruct (insert_or_ignore_lookup cats c) as [x Hx].
  exists x. eapply lookup_weaken; [exact Hx | apply seed_subseteq].
Qed.

Lemma seed_again (l : list (Z * category_row))
    (cats : gmap Z category_row) :
  Forall (fun c => is_Some (cats !! c.1)) l ->
  foldl insert_or_ignore cats l = cats.
Proof.
  induction 1 as [| c l Hc Hl IH]; [done |].
  simpl. by rewrite insert_or_ignore_present.
Qed.

Lemma insert_default_data_idempotent (cats : gmap Z category_row) :
  _insert_default_data (_insert_default_data cats)
  = _insert_default_data cats.
Proof. unfold _insert_default_data. apply seed_again, seed_present. Qed.

(** C5. Initialization is idempotent. For every state [s] of the
    database file, running [_init_database] a second time changes
    nothing; a run keeps every row of [records] and every category row
    already present (a taken id is not overwritten); and on a new file
    the first run leaves exactly the ten seeded categories, which the
    second run leaves as they are. *)
Theorem init_database_idempotent (s : storage A) :
  _init_database (_init_database s) = _init_database s /\
  stored_records (_init_database s) = stored_records s /\
  stored_categories s ⊆ stored_categories (_init_database s) /\
  stored_categories (_init_database (_init_database (@fresh A)))
    = list_to_map default_categories /\
  size (stored_categories (_init_database (_init_database (@fresh A))))
    = 10%nat.
Proof.
  split; [| split; [| split; [| split]]].
  - destruct s as [| [rows cats]]; [reflexivity |].
    unfold _init_database. simpl.
    by rewrite insert_default_data_idempotent.
  - by destruct s as [| [rows cats]].
  - destruct s as [| [rows cats]]; [done |]. simpl. apply seed_subseteq.
  - vm_compute. reflexivity.
  - vm_compute. reflexivity.
Qed.

End Initialization.

(** * The error path *)

Section ErrorPath.

Context {A : Type} `{Amount A}.

Lemma try_except_Raise {T} (body : result T) (handler : exn -> T) (e : exn) :
  body = Raise e -> try_except body handler = handler e.
Proof. intros ->. reflexivity. Qed.

Lemma size_zero_totals : size (zero_totals (A:=A)) = 2%nat.
Proof.
  unfold zero_totals.
  rewrite map_size_insert_None, map_size_insert_None, map_size_empty; done.
Qed.

Lemma dom_zero_totals : dom (zero_totals (A:=A)) = {["收入"; "支出"]}.
Proof.
  unfold zero_totals. rewrite !dom_insert_L, dom_empty_L. set_solver.
Qed.

(** C7, as amended. No store operation lets an exception reach its
    caller. Whenever its body raises, [add_record] returns [False] and
    leaves the file as it was, [get_all_records] and
    [get_records_by_date_range] return the empty list, the range summary
    and the monthly summary return the zero-filled mapping
    [{"收入": 0.0, "支出": 0.0}], and the category summary returns the
    empty mapping. *)
Theorem store_operations_catch (now : datetime) (s : storage A)
    (record : Record_ A) (limit : option Z)
    (start_date end_date : datetime) (record_type : option string) :
  (forall e,
     add_record_body s record = Raise e ->
     add_record s record = (false, s)) /\
  (forall e,
     get_all_records_body now s limit = Raise e ->
     get_all_records now s limit = []) /\
  (forall e,
     get_records_by_date_range_body now s start_date end_date record_type
       = Raise e ->
     get_records_by_date_range now s start_date end_date record_type = []) /\
  (forall e,
     get_summary_by_date_range_body s start_date end_date record_type = Raise e ->
     get_summary_by_date_range s start_date end_date record_type
       = <["收入" := amount_zero]> (<["支出" := amount_zero]> ∅)) /\
  (forall e,
     get_monthly_summary_body now s = Raise e ->
     get_monthly_summary now s
       = <["收入" := amount_zero]> (<["支出" := amount_zero]> ∅)) /\
  (forall e,
     get_category_summary_body s start_date end_date record_type = Raise e ->
     get_category_summary s start_date end_date record_type = ∅).
Proof.
  repeat split; intros e He.
  - unfold add_record. by rewrite (try_except_Raise _ _ e).
  - unfold get_all_records. by rewrite (try_except_Raise _ _ e).
  - unfold get_records_by_date_range. by rewrite (try_except_Raise _ _ e).
  - unfold get_summary_by_date_range. by rewrite (try_except_Raise _ _ e).
  - unfold get_monthly_summary. by rewrite (try_except_Raise _ _ e).
  - unfold get_category_summary. by rewrite (try_except_Raise _ _ e).
Qed.

(** C10, as amended. On the error path the summaries skip the narrowing
    to one type. Whenever its body raises, [get_summary_by_date_range]
    returns the two-key zero mapping whatever type was asked for, and so
    does [get_monthly_summary]; [get_category_summary] returns the empty
    mapping, which holds no zero total. A filtered
    [get_summary_by_date_range] that succeeds has exactly one key, so it
    is never the two-key mapping of its error path. The empty mapping of
    [get_category_summary] is also what it returns without an error when
    no row of the range passes the filter, so for this operation the error
    result has the shape of a regular one. *)
Theorem summary_error_shape (now : datetime) (s : storage A)
    (start_date end_date : datetime) (record_type : option string) :
  (forall e,
     get_summary_by_date_range_body s start_date end_date record_type = Raise e ->
     get_summary_by_date_range s start_date end_date record_type = zero_totals) /\
  (forall e,
     get_category_summary_body s start_date end_date record_type = Raise e ->
     get_category_summary s start_date end_date record_type = ∅) /\
  (forall e,
     get_monthly_summary_body now s = Raise e ->
     get_monthly_summary now s = zero_totals) /\
  dom (zero_totals (A:=A)) = {["收入"; "支出"]} /\
  (zero_totals (A:=A)) !! "收入" = Some amount_zero /\
  (zero_totals (A:=A)) !! "支出" = Some amount_zero /\
  (forall t m,
     type_filter record_type = Some t ->
     get_summary_by_date_range_body s start_date end_date record_type = Ok m ->
     get_summary_by_date_range s start_date end_date record_type = m /\
     dom m = {[t]} /\ m <> zero_totals) /\
  (initialized s = true ->
   filter (fun r => where_clause start_date end_date record_type r = true)
          (stored_records s) = [] ->
   get_category_summary_body s start_date end_date record_type = Ok ∅).
Proof.
  split; [| split; [| split; [| split; [| split; [| split; [| split]]]]]].
  - intros e He. unfold get_summary_by_date_range.
    by rewrite (try_except_Raise _ _ e).
  - intros e He. unfold get_category_summary.
    by rewrite (try_except_Raise _ _ e).
  - intros e He. unfold get_monthly_summary.
    by rewrite (try_except_Raise _ _ e).
  - apply dom_zero_totals.
  - reflexivity.
  - reflexivity.
  - intros t m Ht Hm. unfold get_summary_by_date_range. rewrite Hm.
    split; [reflexivity |].
    unfold get_summary_by_date_range_body in Hm.
    destruct (connect s) as [db |]; [| discriminate Hm].
    cbn [mbind result_bind] in Hm.
    destruct (from_records db) as [rows |]; [| discriminate Hm].
    cbn [mbind result_bind] in Hm. rewrite Ht in Hm.
    injection Hm as <-. split; [apply dom_singleton_L |].
    intros Heq. apply (f_equal size) in Heq.
    rewrite map_size_singleton, size_zero_totals in Heq. discriminate Heq.
  - intros Hinit Hnone.
    destruct s as [| [[rows |] [cats |] seq]]; try discriminate Hinit.
    unfold get_category_summary_body.
    cbn [connect from_records from_categories records categories mbind
         result_bind].
    cbn [stored_records records default from_option id] in Hnone.
    by rewrite Hnone.
Qed.

End ErrorPath.

Lemma summary_error_shape_witness :
  get_summary_by_date_range (A:=Z) Unavailable
    (Datetime.mk 2024 1 1 0 0 0 0) (Datetime.mk 2024 1 31 23 59 59 0)
    (Some "收入") = zero_totals /\
  get_category_summary (A:=Z) Unavailable
    (Datetime.mk 2024 1 1 0 0 0 0) (Datetime.mk 2024 1 31 23 59 59 0)
    (Some "收入") = ∅ /\
  get_monthly_summary (A:=Z) (Datetime.mk 2024 1 15 12 0 0 0) Unavailable
    = zero_totals.
Proof.
  pose proof (summary_error_shape (A:=Z) (Datetime.mk 2024 1 15 12 0 0 0)
                Unavailable (Datetime.mk 2024 1 1 0 0 0 0)
                (Datetime.mk 2024 1 31 23 59 59 0) (Some "收入"))
    as (H1 & H2 & H3 & _).
  split; [| split].
  - apply (H1 OperationalError). reflexivity.
  - apply (H2 OperationalError). reflexivity.
  - apply (H3 OperationalError). reflexivity.
Defined.

(** C10 as stated fails for the category summary: asked for one type,
    it returns the same empty mapping when the file cannot be opened and
    its body raises, and when the file is in order but holds no row of
    that type in the range. The error result cannot be told from this
    filtered result. *)
Lemma category_summary_error_like_success :
  get_category_summary_body (A:=Z) Unavailable example_start example_end
    (Some "收入") = Raise OperationalError /\
  get_category_summary_body (add_record (_init_database fresh) supermarket).2
    example_start example_end (Some "收入") = Ok ∅ /\
  get_category_summary (A:=Z) Unavailable example_start example_end
    (Some "收入")
  = get_category_summary (add_record (_init_database fresh) supermarket).2
      example_start example_end (Some "收入").
Proof. by vm_compute. Qed.

(** Two failures of different origin: a path that cannot be opened, and
    a stored row whose payment label is foreign. *)
Lemma store_operations_catch_witness :
  add_record Unavailable supermarket = (false, Unavailable) /\
  get_all_records (A:=Z) example_now Unavailable (Some 10) = [] /\
  get_all_records example_now foreign_store None = [].
Proof.
  pose proof (store_operations_catch (A:=Z) example_now Unavailable
                supermarket (Some 10) example_start example_end None)
    as (H1 & H2 & _).
  pose proof (store_operations_catch example_now foreign_store
                supermarket None example_start example_end None)
    as (_ & H3 & _).
  split; [| split].
  - apply (H1 OperationalError). reflexivity.
  - apply (H2 OperationalError). reflexivity.
  - apply (H3 ValueError). reflexivity.
Defined.

(** C7 as stated fails for the category summary: when the file cannot be
    opened its body raises and the operation returns the empty mapping,
    with no entry at all and so no zero total for any category. *)
Lemma category_summary_failure_is_empty :
  get_category_summary_body (A:=Z) Unavailable
    (Datetime.mk 2024 1 1 0 0 0 0) (Datetime.mk 2024 1 31 23 59 59 0) None
    = Raise OperationalError /\
  get_category_summary (A:=Z) Unavailable
    (Datetime.mk 2024 1 1 0 0 0 0) (Datetime.mk 2024 1 31 23 59 59 0) None
    = ∅ /\
  size (get_category_summary (A:=Z) Unavailable
          (Datetime.mk 2024 1 1 0 0 0 0) (Datetime.mk 2024 1 31 23 59 59 0)
          None) = 0%nat /\
  get_category_summary (A:=Z) Unavailable
    (Datetime.mk 2024 1 1 0 0 0 0) (Datetime.mk 2024 1 31 23 59 59 0) None
    <> {[ Some "购物消费" := zero_totals ]}.
Proof.
  repeat split. intros Heq.
  apply (f_equal size) in Heq. rewrite map_size_singleton in Heq.
  discriminate Heq.
Qed.

(** * Reading rows back *)

Section Reading.

Context {A : Type} `{Amount A}.

Lemma for_each_Forall2 {T U} (f : T -> result U) (l : list T) (ys : list U) :
  for_each f l = Ok ys -> Forall2 (fun x y => f x = Ok y) l ys.
Proof.
  revert ys. induction l as [| x l IH]; intros ys Hys; simpl in Hys.
  - injection Hys as <-. constructor.
  - destruct (f x) as [y |] eqn:Hx; [| discriminate Hys].
    cbn [mbind result_bind] in Hys.
    destruct (for_each f l) as [ys' |]; [| discriminate Hys].
    injection Hys as <-. constructor; [done | by apply IH].
Qed.

Lemma for_each_Ok {T U} (f : T -> result U) (l : list T) :
  Forall (fun x => exists y, f x = Ok y) l -> exists ys, for_each f l = Ok ys.
Proof.
  induction 1 as [| x l [y Hy] _ [ys Hys]]; simpl.
  - by eexists.
  - rewrite Hy. cbn [mbind result_bind]. rewrite Hys. by eexists.
Qed.

Lemma for_each_take {T U} (f : T -> result U) (l : list T) (ys : list U)
    (n : nat) :
  for_each f l = Ok ys -> for_each f (take n l) = Ok (take n ys).
Proof.
  revert ys n. induction l as [| x l IH]; intros ys n Hys; simpl in Hys.
  - injection Hys as <-. by destruct n.
  - destruct (f x) as [y |] eqn:Hx; [| discriminate Hys].
    cbn [mbind result_bind] in Hys.
    destruct (for_each f l) as [ys' |] eqn:Hl; [| discriminate Hys].
    injection Hys as <-. destruct n as [| n]; [reflexivity |].
    simpl. rewrite Hx. cbn [mbind result_bind].
    by rewrite (IH ys' n).
Qed.

Lemma for_each_length {T U} (f : T -> result U) (l : list T) (ys : list U) :
  for_each f l = Ok ys -> length ys = length l.
Proof.
  intros Hys. apply for_each_Forall2 in Hys.
  symmetry. by eapply Forall2_length.
Qed.

Lemma enum_lookup_Ok {E} (value_of : E -> string) (members : list E)
    (v : string) (m : E) :
  enum_lookup value_of members v = Ok m -> value_of m = v.
Proof.
  intros Hm. pose proof (enum_lookup_spec value_of members v) as Hspec.
  rewrite Hm in Hspec. tauto.
Qed.

(** What a record read back from a row holds. *)
Lemma record_of_row_fields (now : datetime) (cats : gmap Z category_row)
    (row : record_row A) (R : Record_ A) :
  record_of_row now cats row = Ok R ->
  record_id R = row_id row /\
  amount R = row_amount row /\
  RecordType_value (record_type R) = row_type row /\
  category_id (category R) = row_category_id row /\
  PaymentMethod_value (payment_method R) = row_payment_method row /\
  note R = row_note row /\
  record_date R
  = match Datetime.fromisoformat (row_record_date row) with
    | Ok d => d
    | Raise _ => now
    end.
Proof.
  unfold record_of_row. intros HR.
  assert (Hdate : exists d,
    match Datetime.fromisoformat (row_record_date row) with
    | Ok d => Ok d
    | Raise ValueError => Ok now
    | Raise e => Raise e
    end = Ok d /\
    d = match Datetime.fromisoformat (row_record_date row) with
        | Ok d => d
        | Raise _ => now
        end).
  { unfold Datetime.fromisoformat.
    destruct (Datetime.parse _) as [d |]; [destruct (Datetime.valid d) |];
      eexists; split; reflexivity. }
  destruct Hdate as (d & Hd & Hdeq). rewrite Hd in HR.
  cbn [mbind result_bind] in HR.
  destruct (RecordType_of_value (row_type row)) as [rt |] eqn:Hrt;
    [| discriminate HR].
  destruct (PaymentMethod_of_value (row_payment_method row)) as [pm |] eqn:Hpm;
    [| discriminate HR].
  cbn [mbind result_bind] in HR. injection HR as <-. simpl.
  apply enum_lookup_Ok in Hrt. apply enum_lookup_Ok in Hpm.
  by rewrite Hdeq.
Qed.

Lemma known_labels_spec (row : record_row A) :
  known_labels row = true <->
  row_type row ∈ RecordType_labels /\
  row_payment_method row ∈ PaymentMethod_labels.
Proof.
  unfold known_labels. by rewrite andb_true_iff, !bool_decide_eq_true.
Qed.

Lemma elem_of_labels_Ok {E} (value_of : E -> string) (members : list E)
    (v : string) :
  v ∈ value_of <$> members -> exists m, enum_lookup value_of members v = Ok m.
Proof.
  intros Hin. pose proof (enum_lookup_spec value_of members v) as Hspec.
  destruct (enum_lookup value_of members v) as [m | e]; [by eexists |].
  by destruct Hspec as [_ Hnot].
Qed.

(** A row with known labels is read back without an exception. *)
Lemma record_of_row_Ok (now : datetime) (cats : gmap Z category_row)
    (row : record_row A) :
  known_labels row = true -> exists R, record_of_row now cats row = Ok R.
Proof.
  intros [Ht Hp]%known_labels_spec.
  apply elem_of_labels_Ok in Ht as [rt Hrt].
  apply elem_of_labels_Ok in Hp as [pm Hpm].
  unfold record_of_row.
  fold RecordType_of_value in Hrt. fold PaymentMethod_of_value in Hpm.
  rewrite Hrt, Hpm.
  unfold Datetime.fromisoformat.
  destruct (Datetime.parse _) as [d |]; [destruct (Datetime.valid d) |];
    by eexists.
Qed.

(** ** Sorting and limiting *)

Global Instance date_desc_total : Total (date_desc (A:=A)).
Proof.
  intros r1 r2. unfold date_desc.
  destruct (String.leb_total (row_record_date r2) (row_record_date r1))
    as [Hle | Hle]; rewrite Hle; [left | right]; exact I.
Qed.

Lemma insert_by_date_perm (r : record_row A) (l : list (record_row A)) :
  insert_by_date r l ≡ₚ r :: l.
Proof.
  induction l as [| r' l IH]; [done |]. cbn [insert_by_date].
  destruct (decide (date_desc r r')); [done |].
  rewrite IH. apply Permutation_swap.
Qed.

Lemma insert_by_date_hd (r x : record_row A) (l : list (record_row A)) :
  date_desc x r -> HdRel date_desc x l ->
  HdRel date_desc x (insert_by_date r l).
Proof.
  intros Hxr Hl. destruct l as [| r' l]; [by constructor |].
  cbn [insert_by_date]. destruct (decide (date_desc r r')).
  - by constructor.
  - constructor. by apply HdRel_inv in Hl.
Qed.

Lemma insert_by_date_sorted (r : record_row A) (l : list (record_row A)) :
  Sorted date_desc l -> Sorted date_desc (insert_by_date r l).
Proof.
  induction l as [| r' l IH]; intros Hl; [by repeat constructor |].
  cbn [insert_by_date]. destruct (decide (date_desc r r')) as [Hr | Hr].
  - constructor; [done | by constructor].
  - apply Sorted_inv in Hl as [Hl Hhd].
    constructor; [by apply IH |].
    apply insert_by_date_hd; [| done].
    by destruct (total date_desc r r').
Qed.

Lemma order_by_sorted (rows : list (record_row A)) :
  Sorted date_desc (order_by_record_date_desc rows).
Proof.
  induction rows as [| r rows IH]; [constructor |].
  by apply insert_by_date_sorted.
Qed.

Lemma order_by_perm (rows : list (record_row A)) :
  order_by_record_date_desc rows ≡ₚ rows.
Proof.
  induction rows as [| r rows IH]; [done |].
  cbn [order_by_record_date_desc foldr]. rewrite insert_by_date_perm.
  by constructor.
Qed.

Lemma Sorted_take {T} (R : relation T) (l : list T) (n : nat) :
  Sorted R l -> Sorted R (take n l).
Proof.
  revert n. induction l as [| x l IH]; intros n Hl; [by destruct n |].
  destruct n as [| n]; [constructor |].
  apply Sorted_inv in Hl as [Hl Hx]. simpl. constructor; [by apply IH |].
  destruct l as [| y l]; [destruct n; constructor |].
  destruct n as [| n]; [constructor |].
  apply HdRel_inv in Hx. by constructor.
Qed.

(** ** The shape of a well-formed store *)

Lemma store_ok_inv (s : storage A) :
  store_ok s = true ->
  exists rows cats seq,
    s = Available (mkDb (Some rows) (Some cats) seq) /\
    Forall (fun r => known_labels r = true) rows.
Proof.
  unfold store_ok. intros [Hi Hl]%andb_true_iff.
  destruct s as [| [[rows |] [cats |] seq]]; try discriminate Hi.
  exists rows, cats, seq. split; [done |].
  simpl in Hl. rewrite forallb_forall in Hl.
  apply Forall_forall. intros r Hr. by apply Hl, list_elem_of_In.
Qed.

(** ** The next id *)

Lemma largest_rowid_ge (rows : list (record_row A)) (r : record_row A) :
  r ∈ rows -> row_id r <= largest_rowid rows.
Proof.
  unfold largest_rowid. destruct rows as [| r0 rows]; [by intros ?%elem_of_nil |].
  rewrite fmap_cons. revert r0.
  induction rows as [| r1 rows IH]; intros r0 Hr.
  - apply list_elem_of_singleton in Hr as ->. simpl. lia.
  - rewrite fmap_cons. cbn [foldr].
    apply elem_of_cons in Hr as [-> | Hr].
    + specialize (IH r0 (list_elem_of_here _ _)). lia.
    + assert (Hr0 : r ∈ r1 :: rows) by done.
      apply elem_of_cons in Hr0 as [-> | Hr0]; [lia |].
      specialize (IH r0 (list_elem_of_further _ _ _ Hr0)). lia.
Qed.

Lemma next_rowid_Ok (seq : Z) (rows : list (record_row A)) (id : Z) :
  next_rowid seq rows = Ok id <->
  used_rowid seq rows < max_rowid /\ id = 1 + used_rowid seq rows.
Proof.
  unfold next_rowid. destruct (Z.leb_spec max_rowid (used_rowid seq rows)).
  - split; [done | lia].
  - split; [by intros [= <-] | by intros [_ ->]].
Qed.

(** The id of a new row is greater than every id in the table and than
    the counter. *)
Lemma row_id_lt_next (seq : Z) (rows : list (record_row A))
    (r : record_row A) :
  r ∈ rows -> row_id r < 1 + used_rowid seq rows.
Proof.
  intros Hr%largest_rowid_ge. unfold used_rowid. lia.
Qed.


(** ** What [add_record] does *)

Lemma storable_spec (record : Record_ A) :
  storable record = true <->
  bind_integer (category_id (category record))
  = Ok (category_id (category record)) /\
  bind_text (note record) = Ok (note record) /\
  not_null_amount (amount record) = Ok (amount record).
Proof.
  unfold storable, fits_int64, encodable, bind_integer, bind_text,
    not_null_amount.
  destruct (category_id (category record)) as [i |].
  - destruct (Z.ltb_spec i (- 2 ^ 63)), (Z.ltb_spec (2 ^ 63 - 1) i),
      (Z.leb_spec (- 2 ^ 63) i), (Z.leb_spec i (2 ^ 63 - 1)); try lia;
      cbn [orb andb]; try (split; [done | by intros [[=] _]]);
      destruct (note record) as [text |];
      try destruct (has_surrogate text);
      destruct (amount_nan (amount record)); cbn [orb andb negb];
      (split; [done || by repeat split | by intros (_ & ? & ?)]).
  - destruct (note record) as [text |];
      try destruct (has_surrogate text);
      destruct (amount_nan (amount record)); cbn [orb andb negb];
      (split; [done || by repeat split | by intros (_ & ? & ?)]).
Qed.

Lemma not_storable_spec (record : Record_ A) :
  storable record = false ->
  (exists e, bind_integer (category_id (category record)) = Raise e) \/
  (exists e, bind_text (note record) = Raise e) \/
  (exists e, not_null_amount (amount record) = Raise e).
Proof.
  unfold storable, fits_int64, encodable, bind_integer, bind_text,
    not_null_amount.
  destruct (amount_nan (amount record)); [by eauto |].
  destruct (note record) as [text |];
    [destruct (has_surrogate text); [by eauto |] |];
    (destruct (category_id (category record)) as [i |]; [| done];
     destruct (Z.ltb_spec i (- 2 ^ 63)), (Z.ltb_spec (2 ^ 63 - 1) i),
       (Z.leb_spec (- 2 ^ 63) i), (Z.leb_spec i (2 ^ 63 - 1)); try lia;
     cbn [orb andb negb]; by eauto).
Qed.

(** A record that can be stored is stored under the next id, in a file
    that opens, has the table and has an id left. *)
Lemma add_record_succeeds (rows : list (record_row A))
    (cats : option (gmap Z category_row)) (seq : Z) (record : Record_ A) :
  storable record = true ->
  used_rowid seq rows < max_rowid ->
  let id := 1 + used_rowid seq rows in
  add_record (Available (mkDb (Some rows) cats seq)) record
  = (true,
     Available (mkDb (Some (rows ++ [row_of_record id record])%list)
                     cats id)).
Proof.
  intros (Hc & Hn & Ha)%storable_spec Hroom id.
  unfold add_record, add_record_body.
  cbn [connect from_records records categories sequence mbind result_bind].
  rewrite Hc, Hn. cbn [mbind result_bind].
  assert (Hid : next_rowid seq rows = Ok id) by (by apply next_rowid_Ok).
  rewrite Hid. cbn [mbind result_bind]. rewrite Ha. reflexivity.
Qed.

(** [add_record] returns [True] only in that case. *)
Lemma add_record_true (s : storage A) (record : Record_ A) :
  (add_record s record).1 = true ->
  exists rows cats seq,
    s = Available (mkDb (Some rows) cats seq) /\
    storable record = true /\
    used_rowid seq rows < max_rowid /\
    (add_record s record).2
    = Available
        (mkDb (Some (rows ++
                 [row_of_record (1 + used_rowid seq rows) record])%list)
              cats (1 + used_rowid seq rows)).
Proof.
  destruct s as [| [[rows |] cats seq]]; [done | | done].
  intros Hok. exists rows, cats, seq. split; [done |].
  destruct (storable record) eqn:Hst.
  - destruct (Z.ltb_spec (used_rowid seq rows) max_rowid) as [Hroom | Hfull].
    + by rewrite add_record_succeeds.
    + unfold add_record, add_record_body in Hok.
      cbn [connect from_records records categories sequence mbind
           result_bind] in Hok.
      apply storable_spec in Hst as (Hc & Hn & _).
      rewrite Hc, Hn in Hok. cbn [mbind result_bind] in Hok.
      unfold next_rowid in Hok.
      by destruct (Z.leb_spec max_rowid (used_rowid seq rows)); [| lia].
  - unfold add_record, add_record_body in Hok.
    cbn [connect from_records records categories sequence mbind
         result_bind] in Hok.
    destruct (not_storable_spec record Hst) as [[e He] | [[e He] | [e He]]].
    + by rewrite He in Hok.
    + destruct (bind_integer _); [| done]. by rewrite He in Hok.
    + destruct (bind_integer _); [| done]. cbn [mbind result_bind] in Hok.
      destruct (bind_text _); [| done]. cbn [mbind result_bind] in Hok.
      destruct (next_rowid _ _); [| done]. cbn [mbind result_bind] in Hok.
      by rewrite He in Hok.
Qed.

(** When it returns [False] the file is as before. *)
Lemma add_record_false (s : storage A) (record : Record_ A) :
  (add_record s record).1 = false -> (add_record s record).2 = s.
Proof.
  destruct s as [| [[rows |] cats seq]]; [done | | done].
  unfold add_record, add_record_body.
  cbn [connect from_records records categories sequence mbind result_bind].
  destruct (bind_integer _); [| done]. cbn [mbind result_bind].
  destruct (bind_text _); [| done]. cbn [mbind result_bind].
  destruct (next_rowid _ _); [| done]. cbn [mbind result_bind].
  by destruct (not_null_amount _).
Qed.

Lemma known_labels_row_of_record (id : Z) (record : Record_ A) :
  known_labels (row_of_record id record) = true.
Proof.
  apply known_labels_spec. simpl. split.
  - apply list_elem_of_fmap. exists (record_type record). split; [done |].
    apply list_elem_of_In. destruct (record_type record); simpl; tauto.
  - apply list_elem_of_fmap. exists (payment_method record). split; [done |].
    apply list_elem_of_In. destruct (payment_method record); simpl; tauto.
Qed.

(** Initialization and [add_record] build well-formed stores. *)
Lemma store_ok_init_fresh : store_ok (_init_database (@fresh A)) = true.
Proof. reflexivity. Qed.

Lemma store_ok_add_record (s : storage A) (record : Record_ A) :
  store_ok s = true -> store_ok (add_record s record).2 = true.
Proof.
  intros Hok. destruct ((add_record s record).1) eqn:Hadd.
  - destruct (add_record_true s record Hadd)
      as (rows & cats & seq & -> & _ & _ & ->).
    destruct (store_ok_inv _ Hok) as (rows' & cats' & seq' & [= <- ->] & Hrows).
    unfold store_ok. simpl. rewrite forallb_app. simpl.
    rewrite known_labels_row_of_record.
    rewrite !andb_true_r. apply forallb_forall. intros r Hr.
    rewrite Forall_forall in Hrows. by apply Hrows, list_elem_of_In.
  - by rewrite add_record_false.
Qed.


End Reading.




(** * Range queries *)

Section RangeQueries.

Context {A : Type} `{Amount A}.

Lemma string_leb_refl (s : string) : String.leb s s = true.
Proof.
  unfold String.leb.
  pose proof (String.compare_antisym s s) as Hc.
  destruct (String.compare s s); (reflexivity || discriminate Hc).
Qed.

Lemma elem_of_order_by (r : record_row A) (rows : list (record_row A)) :
  r ∈ order_by_record_date_desc rows <-> r ∈ rows.
Proof. by rewrite order_by_perm. Qed.

(** Every row that a query fetches from a well-formed store is read back,
    and the result lists the records of the fetched rows in order. *)
Lemma for_each_record_of_row (now : datetime) (cats : gmap Z category_row)
    (fetched : list (record_row A)) :
  Forall (fun r => known_labels r = true) fetched ->
  exists Rs,
    for_each (record_of_row now cats) fetched = Ok Rs /\
    Forall2 (fun row R => record_of_row now cats row = Ok R) fetched Rs.
Proof.
  intros Hl.
  destruct (for_each_Ok (record_of_row now cats) fetched) as [Rs HRs].
  { eapply Forall_impl; [exact Hl |]. intros r Hr. by apply record_of_row_Ok. }
  exists Rs. split; [done |]. by apply for_each_Forall2.
Qed.

(** C6. The date filter includes both ends of the range. In a
    well-formed store, for a range from [S] to [E] with [S] not after [E],
    a stored row whose timestamp text is exactly [S.isoformat()] or
    exactly [E.isoformat()], and whose type passes the type filter of the
    query (if there is one), is in the result of
    [get_records_by_date_range(S, E, ...)]: the result holds a record with
    the row's id, amount and timestamp. *)
Theorem date_range_inclusive (now : datetime) (s : storage A)
    (start_date end_date : datetime) (record_type : option string)
    (row : record_row A) :
  store_ok s = true ->
  Datetime.valid start_date = true ->
  Datetime.valid end_date = true ->
  Datetime.leb start_date end_date = true ->
  row ∈ stored_records s ->
  row_record_date row = Datetime.isoformat start_date \/
  row_record_date row = Datetime.isoformat end_date ->
  (forall t, type_filter record_type = Some t -> row_type row = t) ->
  exists R,
    R ∈ get_records_by_date_range now s start_date end_date record_type /\
    record_id R = row_id row /\
    amount R = row_amount row /\
    Datetime.isoformat (record_date R) = row_record_date row.
Proof.
  intros Hok HvS HvE Hle Hin Hdate Hty.
  destruct (store_ok_inv s Hok) as (rows & cats & seq & -> & Hrows).
  simpl in Hin.
  unfold get_records_by_date_range, get_records_by_date_range_body. simpl.
  cbn [mbind result_bind].
  set (sel := filter _ rows).
  assert (Hsel : row ∈ sel).
  { apply list_elem_of_filter. split; [| done].
    unfold where_clause, between. apply andb_true_iff. split.
    - rewrite <- DatetimeFacts.leb_isoformat in Hle by done.
      destruct Hdate as [-> | ->];
        rewrite string_leb_refl, ?Hle; reflexivity.
    - destruct (type_filter record_type) as [t |]; [| done].
      rewrite (Hty t eq_refl). apply String.eqb_refl. }
  destruct (for_each_record_of_row now cats (order_by_record_date_desc sel))
    as (Rs & HRs & Hall).
  { rewrite order_by_perm. apply Forall_forall. intros r Hr.
    apply list_elem_of_filter in Hr as [_ Hr].
    rewrite Forall_forall in Hrows. by apply Hrows. }
  rewrite HRs. simpl.
  apply elem_of_order_by, list_elem_of_lookup in Hsel as [i Hi].
  destruct (Forall2_lookup_l _ _ _ _ _ Hall Hi) as (R & HR & Hrow).
  exists R. split; [by eapply list_elem_of_lookup_2 |].
  apply record_of_row_fields in Hrow as (Hid & Ham & _ & _ & _ & _ & Hd).
  repeat split; try done.
  rewrite Hd.
  destruct Hdate as [-> | ->];
    by rewrite DatetimeFacts.fromisoformat_isoformat.
Qed.

End RangeQueries.

Lemma date_range_inclusive_witness :
  let now := Datetime.mk 2024 3 1 9 5 0 0 in
  let S := Datetime.mk 2024 2 1 0 0 0 0 in
  let E := Datetime.mk 2024 2 29 23 59 59 0 in
  let R : Record_ Z :=
    mkRecord 0 25680 EXPENSE (mkCategory (Some 2) None None None) ALIPAY
             (Some "supermarket") E in
  let s := (add_record (_init_database fresh) R).2 in
  exists R',
    R' ∈ get_records_by_date_range now s S E (Some "支出") /\
    record_id R' = 1 /\
    amount R' = 25680 /\
    Datetime.isoformat (record_date R') = "2024-02-29T23:59:59".
Proof.
  apply (date_range_inclusive (A:=Z) (Datetime.mk 2024 3 1 9 5 0 0)
           (add_record (_init_database fresh)
              (mkRecord 0 25680 EXPENSE (mkCategory (Some 2) None None None)
                        ALIPAY (Some "supermarket")
                        (Datetime.mk 2024 2 29 23 59 59 0))).2
           (Datetime.mk 2024 2 1 0 0 0 0) (Datetime.mk 2024 2 29 23 59 59 0)
           (Some "支出")
           (mkRow 1 25680 "支出" (Some 2) "支付宝" (Some "supermarket")
                  "2024-02-29T23:59:59")).
  - reflexivity.
  - reflexivity.
  - reflexivity.
  - reflexivity.
  - vm_compute. apply list_elem_of_here.
  - right. reflexivity.
  - intros t [= <-]. reflexivity.
Defined.

(** * Summaries *)

Section Summaries.

Context {A : Type} `{Amount A}.

(** The mapping after the loop over the fetched groups: a type that has a
    group holds its total, any other key is as it was. *)
Lemma store_totals_keys (g : string -> A) (ks : list string)
    (m : gmap string A) (k : string) :
  store_totals m ((fun t => (t, g t)) <$> ks) !! k
  = if decide (k ∈ ks) then Some (py_or (g k) amount_zero) else m !! k.
Proof.
  unfold store_totals. revert m.
  induction ks as [| k0 ks IH]; intros m.
  - cbn [fmap list_fmap foldl]. destruct (decide (k ∈ [])) as [Hin | _]; [| done].
    by apply elem_of_nil in Hin.
  - rewrite fmap_cons. cbn [foldl fst snd]. rewrite IH. destruct (decide (k ∈ ks)) as [Hin | Hnin].
    + by rewrite decide_True by (by apply list_elem_of_further).
    + destruct (decide (k = k0)) as [-> | Hne].
      * rewrite decide_True by apply list_elem_of_here.
        by rewrite lookup_insert_eq.
      * rewrite decide_False by (rewrite elem_of_cons; tauto).
        by rewrite lookup_insert_ne.
Qed.

Lemma store_totals_group (rows : list (record_row A)) (m : gmap string A)
    (k : string) :
  store_totals m (sum_group_by_type rows) !! k
  = if decide (k ∈ row_type <$> rows)
    then Some (py_or (type_total k rows) amount_zero)
    else m !! k.
Proof.
  unfold sum_group_by_type, type_total.
  rewrite (store_totals_keys
             (fun t => sql_sum (row_amount <$>
                          filter (fun r => row_type r = t) rows))).
  destruct (decide (k ∈ remove_dups (row_type <$> rows))) as [Hin | Hnin].
  - rewrite elem_of_remove_dups in Hin. by rewrite decide_True.
  - rewrite elem_of_remove_dups in Hnin. by rewrite decide_False.
Qed.

Lemma type_total_absent (k : string) (rows : list (record_row A)) :
  k ∉ row_type <$> rows -> type_total k rows = amount_zero.
Proof.
  intros Hnin. unfold type_total.
  assert (Hnil : filter (fun r => row_type r = k) rows = []).
  { destruct (filter _ rows) as [| r l] eqn:Hf; [done |].
    assert (Hr : r ∈ filter (fun r => row_type r = k) rows)
      by (rewrite Hf; apply list_elem_of_here).
    apply list_elem_of_filter in Hr as [Hk Hr].
    exfalso. apply Hnin. apply list_elem_of_fmap. by exists r. }
  by rewrite Hnil.
Qed.

Lemma py_or_zero : py_or amount_zero amount_zero = amount_zero :> A.
Proof. unfold py_or. by destruct (amount_truthy _). Qed.

(** A type label of the enumeration always has a total, with or without
    rows of that type. *)
Lemma store_totals_label (rows : list (record_row A)) (k : string) :
  k ∈ RecordType_labels ->
  store_totals zero_totals (sum_group_by_type rows) !! k
  = Some (py_or (type_total k rows) amount_zero).
Proof.
  intros Hk. rewrite store_totals_group.
  destruct (decide _) as [Hin | Hnin]; [done |].
  rewrite type_total_absent, py_or_zero by done.
  unfold zero_totals.
  apply list_elem_of_In in Hk.
  destruct Hk as [<- | [<- | []]]; reflexivity.
Qed.

Lemma dom_store_totals (m : gmap string A) (fetched : list (string * A)) :
  dom (store_totals m fetched) = dom m ∪ list_to_set fetched.*1.
Proof.
  unfold store_totals. revert m.
  induction fetched as [| [k v] l IH]; intros m; simpl.
  - by rewrite union_empty_r_L.
  - rewrite IH, dom_insert_L. cbn [fst].
    by rewrite (comm_L (∪) {[k]} (dom m)), <- (assoc_L (∪)).
Qed.

Lemma type_filter_specific (t : string) :
  type_filter (Some t) = Some t <-> t <> "" /\ t <> "全部".
Proof.
  unfold type_filter.
  destruct (String.eqb_spec t ""), (String.eqb_spec t "全部"); simpl;
    split; try done; try tauto; intros [? ?]; congruence.
Qed.

Lemma type_filter_all : type_filter (Some "全部") = None.
Proof. reflexivity. Qed.

(** Asking for one type keeps, of the rows of the range, those of that
    type. *)
Lemma where_clause_specific (start_date end_date : datetime) (t : string)
    (rows : list (record_row A)) :
  type_filter (Some t) = Some t ->
  filter (fun r => where_clause start_date end_date (Some t) r = true) rows
  = filter (fun r => row_type r = t)
      (filter (fun r => where_clause start_date end_date (Some "全部") r = true)
              rows).
Proof.
  intros Ht. rewrite list_filter_filter. apply list_filter_iff.
  intros r. unfold where_clause. rewrite Ht, type_filter_all.
  rewrite !andb_true_iff, String.eqb_eq. tauto.
Qed.

Lemma type_total_filter (k : string) (rows : list (record_row A)) :
  type_total k (filter (fun r => row_type r = k) rows) = type_total k rows.
Proof.
  unfold type_total. by rewrite list_filter_filter_r.
Qed.

Lemma elem_of_types_filter (k : string) (rows : list (record_row A)) :
  k ∈ row_type <$> filter (fun r => row_type r = k) rows
  <-> k ∈ row_type <$> rows.
Proof.
  rewrite !list_elem_of_fmap. split.
  - intros (r & Hk & Hr). apply list_elem_of_filter in Hr as [_ Hr]. by exists r.
  - intros (r & Hk & Hr). exists r. split; [done |].
    by apply list_elem_of_filter.
Qed.

Lemma RecordType_labels_dom : dom (zero_totals (A:=A)) = list_to_set RecordType_labels.
Proof.
  rewrite dom_zero_totals. unfold RecordType_labels. simpl.
  by rewrite union_empty_r_L.
Qed.

(** C3. In a well-formed store, the summary for one type [t] is the
    one-key mapping that gives [t] the total it has in the summary for
    "全部" (all types) over the same range. The summary for all types has
    exactly the two keys "收入" and "支出", and a type without a row in the
    range has the total 0.0. *)
Theorem summary_type_filter (s : storage A) (start_date end_date : datetime)
    (t : string) :
  store_ok s = true ->
  type_filter (Some t) = Some t ->
  get_summary_by_date_range s start_date end_date (Some t)
  = {[ t := default amount_zero
              (get_summary_by_date_range s start_date end_date (Some "全部")
                 !! t) ]} /\
  dom (get_summary_by_date_range s start_date end_date (Some "全部"))
  = {["收入"; "支出"]} /\
  (forall label,
     label ∈ RecordType_labels ->
     (forall r,
        r ∈ stored_records s ->
        between (row_record_date r) (Datetime.isoformat start_date)
                (Datetime.isoformat end_date) = true ->
        row_type r <> label) ->
     get_summary_by_date_range s start_date end_date (Some "全部") !! label
     = Some amount_zero).
Proof.
  intros Hok Ht.
  destruct (store_ok_inv s Hok) as (rows & cats & seq & -> & Hrows).
  unfold get_summary_by_date_range, get_summary_by_date_range_body.
  cbn [connect from_records records mbind result_bind try_except].
  rewrite Ht, type_filter_all. cbn [try_except].
  set (sel := filter (fun r => where_clause start_date end_date
                                 (Some "全部") r = true) rows).
  split; [| split].
  - do 2 f_equal. rewrite where_clause_specific by done. fold sel.
    rewrite !store_totals_group, type_total_filter.
    destruct (decide (t ∈ row_type <$> sel)) as [Hin | Hnin].
    + by rewrite decide_True by (by apply elem_of_types_filter).
    + by rewrite decide_False by (by rewrite elem_of_types_filter).
  - rewrite dom_store_totals, <- dom_zero_totals.
    rewrite (comm_L (∪)). apply subseteq_union_1_L. intros k Hk.
    apply elem_of_list_to_set, list_elem_of_fmap in Hk as ([k' v] & -> & Hk).
    unfold sum_group_by_type in Hk.
    apply list_elem_of_fmap in Hk as (k'' & [= -> ->] & Hk).
    rewrite elem_of_remove_dups in Hk.
    apply list_elem_of_fmap in Hk as (r & -> & Hr).
    apply list_elem_of_filter in Hr as [_ Hr].
    rewrite Forall_forall in Hrows.
    apply Hrows, known_labels_spec in Hr as [Hr _].
    rewrite RecordType_labels_dom. by apply elem_of_list_to_set.
  - intros label Hlabel Hnone.
    rewrite store_totals_label by done.
    rewrite type_total_absent, py_or_zero; [done |].
    intros (r & -> & Hr)%list_elem_of_fmap.
    apply list_elem_of_filter in Hr as [Hw Hr].
    apply (Hnone r); [done | | done].
    unfold where_clause in Hw. by apply andb_true_iff in Hw as [Hw _].
Qed.

End Summaries.

Lemma summary_type_filter_witness :
  let S := Datetime.mk 2024 2 1 0 0 0 0 in
  let E := Datetime.mk 2024 2 29 23 59 59 0 in
  let R : Record_ Z :=
    mkRecord 0 25680 EXPENSE (mkCategory (Some 2) None None None) ALIPAY
             (Some "supermarket") (Datetime.mk 2024 2 10 10 0 0 0) in
  let s := (add_record (_init_database fresh) R).2 in
  get_summary_by_date_range s S E (Some "支出") = {[ "支出" := 25680 ]} /\
  get_summary_by_date_range s S E (Some "全部") !! "收入" = Some 0.
Proof.
  intros S E R s.
  destruct (summary_type_filter (A:=Z) s S E "支出") as (H1 & _ & H3);
    [reflexivity | reflexivity |].
  split.
  - exact H1.
  - apply H3.
    + vm_compute. apply list_elem_of_here.
    + intros r Hr _. vm_compute in Hr.
      apply list_elem_of_singleton in Hr. subst r. discriminate.
Defined.

(** * The limit of [get_all_records] *)

Section Limit.

Context {A : Type} `{Amount A}.

(** Either the operation returns the empty list, or the file is
    initialized and the result is read back from the fetched rows. *)
Lemma get_all_records_cases (now : datetime) (s : storage A)
    (limit : option Z) :
  get_all_records now s limit = [] \/
  exists rows cats seq fetched,
    s = Available (mkDb (Some rows) (Some cats) seq) /\
    limit_clause limit (order_by_record_date_desc rows) = Ok fetched /\
    for_each (record_of_row now cats) fetched
    = Ok (get_all_records now s limit).
Proof.
  unfold get_all_records, get_all_records_body.
  destruct s as [| [[rows |] [cats |] seq]]; try (by left).
  cbn [connect from_records from_categories records categories
       mbind result_bind].
  destruct (limit_clause limit _) as [fetched |] eqn:Hl; [| by left].
  cbn [mbind result_bind].
  destruct (for_each _ fetched) as [Rs |] eqn:HRs; [| by left].
  right. by exists rows, cats, seq, fetched.
Qed.

Lemma limit_clause_positive (n : Z) (rows fetched : list (record_row A)) :
  0 < n ->
  limit_clause (Some n) rows = Ok fetched ->
  fetched = take (Z.to_nat n) rows.
Proof.
  intros Hn. unfold limit_clause, sql_limit.
  rewrite (proj2 (Z.eqb_neq n 0)) by lia.
  destruct (_ || _); [discriminate |].
  rewrite (proj2 (Z.ltb_ge n 0)) by lia. by intros [= <-].
Qed.

Lemma fromisoformat_valid (text : string) (d : datetime) :
  Datetime.fromisoformat text = Ok d -> Datetime.valid d = true.
Proof.
  unfold Datetime.fromisoformat.
  destruct (Datetime.parse text) as [d' |]; [| discriminate].
  destruct (Datetime.valid d') eqn:Hv; [| discriminate].
  by intros [= <-].
Qed.

(** For dates written by [isoformat], the order of the stored text is
    the order of the datetimes read back. *)
Lemma date_desc_newest_first (now : datetime) (cats : gmap Z category_row)
    (r1 r2 : record_row A) (R1 R2 : Record_ A) :
  iso_date r1 = true -> iso_date r2 = true ->
  record_of_row now cats r1 = Ok R1 ->
  record_of_row now cats r2 = Ok R2 ->
  date_desc r1 r2 -> newest_first R1 R2.
Proof.
  unfold iso_date, date_desc, newest_first.
  intros Hi1 Hi2 HR1 HR2 Hle.
  apply record_of_row_fields in HR1 as (_ & _ & _ & _ & _ & _ & ->).
  apply record_of_row_fields in HR2 as (_ & _ & _ & _ & _ & _ & ->).
  destruct (Datetime.fromisoformat (row_record_date r1)) as [d1 |] eqn:Hd1;
    [| discriminate].
  destruct (Datetime.fromisoformat (row_record_date r2)) as [d2 |] eqn:Hd2;
    [| discriminate].
  apply String.eqb_eq in Hi1, Hi2. rewrite <- Hi1, <- Hi2 in Hle.
  rewrite DatetimeFacts.leb_isoformat in Hle
    by (by eapply fromisoformat_valid).
  by apply Is_true_true.
Qed.

Lemma Sorted_newest_first (now : datetime) (cats : gmap Z category_row)
    (fetched : list (record_row A)) (Rs : list (Record_ A)) :
  Forall (fun r => iso_date r = true) fetched ->
  Forall2 (fun row R => record_of_row now cats row = Ok R) fetched Rs ->
  Sorted date_desc fetched -> Sorted newest_first Rs.
Proof.
  intros Hiso Hall. revert Hiso.
  induction Hall as [| r R l Rs HR Hall IH]; intros Hiso Hs; [constructor |].
  apply Forall_cons in Hiso as [Hr Hiso].
  apply Sorted_inv in Hs as [Hs Hhd].
  constructor; [by apply IH |].
  destruct Hall as [| r' R' l' Rs' HR' Hall']; [constructor |].
  apply Forall_cons in Hiso as [Hr' _]. apply HdRel_inv in Hhd.
  constructor. by apply (date_desc_newest_first now cats r r').
Qed.

(** C4, as amended. For every limit [N > 0] and every state of the
    database file, [get_all_records(limit=N)] returns at most [N]
    records; they are read back, in order, from stored rows listed by
    stored timestamp text, largest first, equal timestamps allowed; when
    every stored timestamp was written by [isoformat] this is the order of
    the timestamps of the records, most recent first; and when every
    stored row carries known labels the result is a prefix of
    [get_all_records()]. *)
Theorem get_all_records_limit (now : datetime) (s : storage A) (N : Z) :
  0 < N ->
  Z.of_nat (length (get_all_records now s (Some N))) <= N /\
  (exists fetched,
     fetched ⊆ stored_records s /\
     Sorted date_desc fetched /\
     Forall2 (fun row R => record_of_row now (stored_categories s) row = Ok R)
             fetched (get_all_records now s (Some N))) /\
  (forallb iso_date (stored_records s) = true ->
   Sorted newest_first (get_all_records now s (Some N))) /\
  (forallb known_labels (stored_records s) = true ->
   get_all_records now s (Some N) `prefix_of` get_all_records now s None).
Proof.
  intros HN.
  destruct (get_all_records_cases now s (Some N))
    as [-> | (rows & cats & seq & fetched & -> & Hlim & HRs)].
  { split; [simpl; lia |]. split; [| split].
    - exists []. split; [apply list_subseteq_nil |]. split; constructor.
    - intros _. constructor.
    - intros _. apply prefix_nil. }
  apply limit_clause_positive in Hlim; [| done]. subst fetched.
  set (Rs := get_all_records now _ (Some N)) in *.
  set (sorted := order_by_record_date_desc rows) in *.
  assert (Hsub : take (Z.to_nat N) sorted ⊆ rows).
  { intros r Hr. apply elem_of_order_by.
    apply elem_of_take in Hr as (i & Hi & _). by eapply list_elem_of_lookup_2. }
  assert (Hsorted : Sorted date_desc (take (Z.to_nat N) sorted))
    by apply Sorted_take, order_by_sorted.
  pose proof (for_each_Forall2 _ _ _ HRs) as Hall.
  split; [| split; [| split]].
  - rewrite (for_each_length _ _ _ HRs), length_take. lia.
  - by exists (take (Z.to_nat N) sorted).
  - simpl. intros Hiso. eapply Sorted_newest_first; [| exact Hall | done].
    rewrite forallb_forall in Hiso. apply Forall_forall.
    intros r Hr. by apply Hiso, list_elem_of_In, Hsub.
  - simpl. intros Hlabels.
    destruct (for_each_record_of_row now cats sorted) as (Rs' & HRs' & _).
    { rewrite forallb_forall in Hlabels. apply Forall_forall.
      intros r Hr. by apply Hlabels, list_elem_of_In, elem_of_order_by. }
    assert (Hall' : get_all_records now
                      (Available (mkDb (Some rows) (Some cats) seq)) None = Rs').
    { unfold get_all_records, get_all_records_body.
      cbn [connect from_records from_categories records categories
           mbind result_bind limit_clause].
      fold sorted. by rewrite HRs'. }
    rewrite Hall'.
    rewrite (for_each_take _ _ _ (Z.to_nat N) HRs') in HRs.
    injection HRs as <-. apply prefix_take.
Qed.

End Limit.

(** * The summary against the rows *)

Section Refinement.

Context {A : Type} `{Amount A}.




Lemma py_or_exact `{!ExactAmount A} (v : A) : py_or v amount_zero = v.
Proof.
  unfold py_or. destruct (amount_truthy v) eqn:Hv; [done |].
  symmetry. by apply amount_falsy_zero.
Qed.



Lemma zero_totals_labels (k : string) :
  zero_totals (A:=A) !! k
  = if decide (k ∈ RecordType_labels) then Some amount_zero else None.
Proof.
  unfold zero_totals.
  destruct (decide (k ∈ RecordType_labels)) as [Hin | Hnin].
  - apply list_elem_of_In in Hin. destruct Hin as [<- | [<- | []]]; reflexivity.
  - rewrite !lookup_insert_ne; [apply lookup_empty | |];
      intros <-; apply Hnin, list_elem_of_In; simpl; tauto.
Qed.




End Refinement.

Global Instance Z_ExactAmount : ExactAmount Z.
Proof.
  split; simpl.
  - intros a b c. lia.
  - intros a b. lia.
  - intros a. lia.
  - intros a Ha. apply negb_false_iff, Z.eqb_eq in Ha. exact Ha.
Qed.



Lemma get_all_records_limit_witness :
  Z.of_nat (length (get_all_records example_now example_store (Some 1))) <= 1
  /\ Sorted newest_first (get_all_records example_now example_store (Some 1))
  /\ get_all_records example_now example_store (Some 1)
     `prefix_of` get_all_records example_now example_store None.
Proof.
  destruct (get_all_records_limit (A:=Z) example_now example_store 1)
    as (Hlen & _ & Horder & Hprefix); [lia |].
  split; [exact Hlen |]. split.
  - apply Horder. reflexivity.
  - apply Hprefix. reflexivity.
Defined.

(** C4 as stated fails for the limit 0: the test [if limit:] treats 0
    like [None], no [LIMIT] clause is added, and both rows of the example
    ledger come back. *)
Lemma get_all_records_limit_zero :
  length (get_all_records example_now example_store (Some 0)) = 2%nat /\
  ~ Z.of_nat (length (get_all_records example_now example_store (Some 0))) <= 0.
Proof.
  split; [reflexivity |].
  intros Hle. vm_compute in Hle. apply Hle. reflexivity.
Qed.

(** * The time labels of the transaction list *)

Lemma valid_spec (d : datetime) :
  Datetime.valid d = true <->
  1 <= Datetime.year d <= 9999 /\ 1 <= Datetime.month d <= 12 /\
  1 <= Datetime.day d
    <= Datetime.days_in_month (Datetime.year d) (Datetime.month d) /\
  0 <= Datetime.hour d <= 23 /\ 0 <= Datetime.minute d <= 59 /\
  0 <= Datetime.second d <= 59 /\ 0 <= Datetime.microsecond d <= 999999.
Proof.
  unfold Datetime.valid. rewrite !andb_true_iff, !Z.leb_le. tauto.
Qed.

(** Going back one day inside the month succeeds from the second day
    on. *)
Lemma replace_day_previous (now : datetime) :
  Datetime.valid now = true -> 2 <= Datetime.day now ->
  exists yesterday,
    Datetime.replace_day now (Datetime.day now - 1) = Ok yesterday /\
    Datetime.date yesterday
    = (Datetime.year now, Datetime.month now, Datetime.day now - 1).
Proof.
  intros Hv Hday. unfold Datetime.replace_day.
  set (d := Datetime.mk _ _ _ _ _ _ _).
  assert (Hd : Datetime.valid d = true).
  { apply valid_spec in Hv. apply valid_spec. subst d. simpl. lia. }
  rewrite Hd. by exists d.
Qed.

Lemma date_eqb_neq (a b : Z * Z * Z) :
  Datetime.date_eqb a b = false <-> a <> b.
Proof.
  rewrite <- date_eqb_eq. by destruct (Datetime.date_eqb a b).
Qed.

(** The only exception of [get_formatted_time], and when it occurs. *)
Lemma get_formatted_time_raises {A} (now : datetime) (self : Record_ A)
    (e : exn) :
  Datetime.valid now = true ->
  get_formatted_time now self = Raise e <->
  e = ValueError /\ Datetime.day now = 1 /\
  Datetime.date (record_date self) <> Datetime.date now.
Proof.
  intros Hv. unfold get_formatted_time.
  destruct (Datetime.date_eqb _ _) eqn:Hd.
  - split; [discriminate |]. intros (_ & _ & Hne).
    by apply date_eqb_eq in Hd.
  - apply date_eqb_neq in Hd.
    destruct (decide (Datetime.day now = 1)) as [H1 | H1].
    + rewrite H1. change (1 - 1) with 0. rewrite replace_day_zero.
      cbn [mbind result_bind]. split; [by intros [= <-] | by intros (-> & _)].
    + destruct (replace_day_previous now Hv) as (y & -> & Hy).
      { apply valid_spec in Hv. lia. }
      cbn [mbind result_bind].
      split; [| by intros (_ & ? & _)].
      by destruct (Datetime.date_eqb _ (Datetime.date y)).
Qed.

(** X1. For a valid clock reading [now], [get_formatted_time] raises
    only on the first day of a month, and then for every record not dated
    today. In all other cases it returns the label of the record's date:
    "今天" and the time for today, "昨天" and the time for the day before
    in the same month, month/day and the time otherwise. *)
Theorem get_formatted_time_labels {A} (now : datetime) (self : Record_ A) :
  Datetime.valid now = true ->
  let today := Datetime.date now in
  let yesterday :=
    (Datetime.year now, Datetime.month now, Datetime.day now - 1) in
  let date := Datetime.date (record_date self) in
  (forall e,
     get_formatted_time now self = Raise e <->
     e = ValueError /\ Datetime.day now = 1 /\ date <> today) /\
  (date = today ->
   get_formatted_time now self
   = Ok ("今天 " ++ Datetime.strftime_HM (record_date self))) /\
  (Datetime.day now <> 1 -> date = yesterday ->
   get_formatted_time now self
   = Ok ("昨天 " ++ Datetime.strftime_HM (record_date self))) /\
  (Datetime.day now <> 1 -> date <> today -> date <> yesterday ->
   get_formatted_time now self
   = Ok (Datetime.strftime_md_HM (record_date self))).
Proof.
  intros Hv today yesterday date.
  assert (Hday : 1 <= Datetime.day now) by (apply valid_spec in Hv; lia).
  assert (Hny : yesterday <> today).
  { subst yesterday today. unfold Datetime.date. intros [= Heq]. lia. }
  assert (Hfirst : Datetime.day now = 1 -> date <> today ->
                   get_formatted_time now self = Raise ValueError).
  { intros H1 Hd. unfold get_formatted_time. fold date today.
    apply date_eqb_neq in Hd. rewrite Hd, H1.
    change (1 - 1) with 0. by rewrite replace_day_zero. }
  assert (Htoday : date = today ->
                   get_formatted_time now self
                   = Ok ("今天 " ++ Datetime.strftime_HM (record_date self))).
  { intros Hd. unfold get_formatted_time. fold date today.
    apply date_eqb_eq in Hd. by rewrite Hd. }
  assert (Hlater : Datetime.day now <> 1 -> date <> today ->
                   get_formatted_time now self
                   = if decide (date = yesterday)
                     then Ok ("昨天 " ++ Datetime.strftime_HM (record_date self))
                     else Ok (Datetime.strftime_md_HM (record_date self))).
  { intros H1 Hd. unfold get_formatted_time. fold date today.
    apply date_eqb_neq in Hd. rewrite Hd.
    destruct (replace_day_previous now Hv) as (y & -> & Hy); [lia |].
    cbn [mbind result_bind]. rewrite Hy. fold yesterday.
    destruct (decide (date = yesterday)) as [Heq | Hne].
    - apply date_eqb_eq in Heq. by rewrite Heq.
    - apply date_eqb_neq in Hne. by rewrite Hne. }
  split; [| split; [| split]].
  - intros e. split.
    + intros He.
      destruct (decide (date = today)) as [Heq | Hne].
      { rewrite (Htoday Heq) in He. discriminate He. }
      destruct (decide (Datetime.day now = 1)) as [H1 | H1].
      { rewrite (Hfirst H1 Hne) in He. by injection He as <-. }
      rewrite (Hlater H1 Hne) in He.
      destruct (decide (date = yesterday)); discriminate He.
    + intros (-> & H1 & Hd). by apply Hfirst.
  - exact Htoday.
  - intros H1 Hd. rewrite Hlater; [by rewrite decide_True | done | congruence].
  - intros H1 Hd Hy. rewrite Hlater by done. by rewrite decide_False.
Qed.

Lemma get_formatted_time_labels_witness :
  get_formatted_time example_now supermarket = Raise ValueError /\
  get_formatted_time (Datetime.mk 2024 2 11 8 0 0 0) supermarket
  = Ok "昨天 18:30".
Proof.
  split.
  - destruct (get_formatted_time_labels example_now supermarket eq_refl)
      as [Hraise _].
    apply Hraise. split; [reflexivity |]. split; [reflexivity | discriminate].
  - destruct (get_formatted_time_labels (Datetime.mk 2024 2 11 8 0 0 0)
                supermarket eq_refl) as (_ & _ & Hy & _).
    apply Hy; [discriminate | reflexivity].
Defined.

Lemma for_each_Raise {T U} (f : T -> result U) (l : list T) (e : exn) :
  for_each f l = Raise e -> exists x, x ∈ l /\ f x = Raise e.
Proof.
  induction l as [| x l IH]; simpl; [discriminate |].
  destruct (f x) as [y | e'] eqn:Hx; cbn [mbind result_bind].
  - destruct (for_each f l) as [ys | e'']; cbn [mbind result_bind];
      [discriminate |].
    intros [= ->]. destruct (IH eq_refl) as (x' & Hin & Hx').
    exists x'. split; [by apply list_elem_of_further | done].
  - intros [= ->]. exists x. split; [apply list_elem_of_here | done].
Qed.

Lemma for_each_raises {T U} (f : T -> result U) (l : list T) (x : T)
    (e : exn) :
  x ∈ l -> f x = Raise e -> exists e', for_each f l = Raise e'.
Proof.
  intros Hin Hx. induction l as [| x' l IH]; [by apply elem_of_nil in Hin |].
  simpl. destruct (f x') as [y | e'] eqn:Hx'; cbn [mbind result_bind];
    [| by eexists].
  apply elem_of_cons in Hin as [-> | Hin]; [congruence |].
  destruct (IH Hin) as [e'' ->]. by eexists.
Qed.

(** X2. The list of recent transactions asks [get_formatted_time] for a
    label of each of the first ten records of [get_all_records()] and does
    not catch its exception. For valid clock readings, drawing the list
    raises [ValueError] exactly when some shown record is reached on the
    first day of a month and is not dated that day, and raises nothing
    else; when it succeeds there is one label per record shown, at most
    ten. *)
Theorem refresh_transactions_raises {A} `{Amount A} (clock : readings)
    (s : storage A) :
  (forall k, Datetime.valid (at_item clock k) = true) ->
  let shown := take 10 (get_all_records (at_query clock) s None) in
  (forall e,
     refresh_transactions clock s = Raise e <->
     e = ValueError /\
     exists k R, shown !! k = Some R /\
                 Datetime.day (at_item clock k) = 1 /\
                 Datetime.date (record_date R)
                 <> Datetime.date (at_item clock k)) /\
  (forall labels,
     refresh_transactions clock s = Ok labels ->
     length labels = length shown /\ (length labels <= 10)%nat).
Proof.
  intros Hv shown. unfold refresh_transactions. fold shown. split.
  - intros e. split.
    + intros He. apply for_each_Raise in He as ([k R] & HR & He).
      apply elem_of_lookup_imap in HR as (k' & R' & [= <- <-] & HR).
      cbn [fst snd] in He.
      apply (get_formatted_time_raises _ R e (Hv k)) in He as (-> & H1 & Hd).
      eauto 6.
    + intros (-> & k & R & HR & H1 & Hd).
      assert (HRe : get_formatted_time (at_item clock k) R = Raise ValueError)
        by (by apply get_formatted_time_raises).
      assert (Hin : (k, R) ∈ imap pair shown)
        by (by apply (elem_of_lookup_imap_2 pair)).
      destruct (for_each_raises
                  (fun item => get_formatted_time (at_item clock item.1)
                                                  item.2)
                  _ _ _ Hin HRe) as [e' He'].
      rewrite He'. f_equal.
      apply for_each_Raise in He' as ([k' R'] & _ & He').
      by apply (get_formatted_time_raises _ R' e' (Hv k')) in He' as (-> & _).
  - intros labels Hl. apply for_each_length in Hl.
    rewrite Hl, length_imap.
    split; [done |]. subst shown. rewrite length_take. lia.
Qed.

Lemma refresh_transactions_raises_witness :
  refresh_transactions (mkReadings example_now (fun _ => example_now))
                       example_store
  = Raise ValueError.
Proof.
  destruct (refresh_transactions_raises
              (mkReadings example_now (fun _ => example_now)) example_store
              (fun _ => eq_refl))
    as [Hraise _].
  apply Hraise. split; [reflexivity |].
  exists 0%nat,
    (mkRecord 2 660000 INCOME
       (mkCategory (Some 8) (Some "工资收入") (Some "💰") (Some "#52BE80"))
       WECHAT (Some "salary") (Datetime.mk 2024 2 28 9 0 0 0)).
  split; [vm_compute; reflexivity |]. split; [reflexivity | discriminate].
Defined.

(** * Inserting and listing *)

Section InsertAndList.

Context {A : Type} `{Amount A}.



(** X4. In a well-formed store [get_all_records()] loses and repeats
    nothing: it returns one record per stored row, and the ids of the
    records are the ids of the rows, in some order. *)
Theorem get_all_records_complete (now : datetime) (s : storage A) :
  store_ok s = true ->
  length (get_all_records now s None) = length (stored_records s) /\
  record_id <$> get_all_records now s None ≡ₚ row_id <$> stored_records s.
Proof.
  intros (rows & cats & seq & -> & Hrows)%store_ok_inv.
  unfold get_all_records, get_all_records_body.
  cbn [connect from_records from_categories records categories
       mbind result_bind limit_clause stored_records].
  destruct (for_each_record_of_row now cats (order_by_record_date_desc rows))
    as (Rs & HRs & Hall).
  { by rewrite order_by_perm. }
  rewrite HRs. cbn [try_except default].
  assert (Hids : record_id <$> Rs
                 = row_id <$> order_by_record_date_desc rows).
  { clear HRs. induction Hall as [| r R l Rs' HR _ IH]; [done |].
    apply record_of_row_fields in HR as (Hid & _).
    by rewrite !fmap_cons, Hid, IH. }
  split.
  - rewrite (for_each_length _ _ _ HRs). by rewrite order_by_perm.
  - rewrite Hids. by rewrite order_by_perm.
Qed.

(** X5. A limit that is zero or negative is no limit:
    [get_all_records(limit=n)] returns what [get_all_records()] returns. *)
Theorem get_all_records_limit_nonpositive (now : datetime) (s : storage A)
    (n : Z) :
  - 2 ^ 63 <= n <= 0 ->
  get_all_records now s (Some n) = get_all_records now s None.
Proof.
  intros Hn. unfold get_all_records, get_all_records_body.
  destruct (connect s) as [db |]; [| done]. cbn [mbind result_bind].
  destruct (from_records db) as [rows |]; [| done]. cbn [mbind result_bind].
  destruct (from_categories db) as [cats |]; [| done].
  cbn [mbind result_bind].
  assert (Hl : limit_clause (Some n) (order_by_record_date_desc rows)
               = Ok (order_by_record_date_desc rows)).
  { unfold limit_clause, sql_limit.
    destruct (Z.eqb_spec n 0) as [| Hn0]; [done |].
    rewrite (proj2 (Z.ltb_ge n (- 2 ^ 63))) by lia.
    rewrite (proj2 (Z.ltb_ge (2 ^ 63 - 1) n)) by lia.
    simpl. by rewrite (proj2 (Z.ltb_lt n 0)) by lia. }
  by rewrite Hl.
Qed.

(** X6. For a limit [N > 0] and rows with known labels,
    [get_all_records(limit=N)] is [get_all_records()[:N]]: the slice
    that the list of recent transactions takes of the unlimited result is
    what the limited query returns. *)
Theorem get_all_records_limit_take (now : datetime) (s : storage A) (N : Z) :
  0 < N <= 2 ^ 63 - 1 ->
  forallb known_labels (stored_records s) = true ->
  get_all_records now s (Some N)
  = take (Z.to_nat N) (get_all_records now s None).
Proof.
  intros HN Hlabels. unfold get_all_records, get_all_records_body.
  destruct s as [| [[rows |] [cats |] seq]];
    try (cbn; by rewrite take_nil).
  cbn [connect from_records from_categories records categories
       mbind result_bind limit_clause].
  assert (Hl : limit_clause (Some N) (order_by_record_date_desc rows)
               = Ok (take (Z.to_nat N) (order_by_record_date_desc rows))).
  { unfold limit_clause, sql_limit.
    rewrite (proj2 (Z.eqb_neq N 0)) by lia.
    rewrite (proj2 (Z.ltb_ge N (- 2 ^ 63))) by lia.
    rewrite (proj2 (Z.ltb_ge (2 ^ 63 - 1) N)) by lia.
    simpl. by rewrite (proj2 (Z.ltb_ge N 0)) by lia. }
  cbn [limit_clause] in Hl. rewrite Hl. cbn [mbind result_bind].
  destruct (for_each_record_of_row now cats (order_by_record_date_desc rows))
    as (Rs & HRs & _).
  { simpl in Hlabels. rewrite forallb_forall in Hlabels.
    apply Forall_forall. intros r Hr.
    by apply Hlabels, list_elem_of_In, elem_of_order_by. }
  by rewrite (for_each_take _ _ _ _ HRs), HRs.
Qed.

End InsertAndList.


Lemma get_all_records_complete_witness :
  length (get_all_records example_now example_store None) = 2%nat.
Proof.
  apply (get_all_records_complete (A:=Z) example_now example_store).
  reflexivity.
Defined.

Lemma get_all_records_limit_nonpositive_witness :
  get_all_records example_now example_store (Some (-1))
  = get_all_records example_now example_store None.
Proof.
  apply (get_all_records_limit_nonpositive (A:=Z)). lia.
Defined.

Lemma get_all_records_limit_take_witness :
  get_all_records example_now example_store (Some 10)
  = take 10 (get_all_records example_now example_store None).
Proof.
  apply (get_all_records_limit_take (A:=Z) example_now example_store 10);
    [lia | reflexivity].
Defined.

(** * What a range query returns *)

Lemma string_leb_trans (a b c : string) :
  String.leb a b = true -> String.leb b c = true -> String.leb a c = true.
Proof.
  revert b c. induction a as [| x a IH]; intros b c Hab Hbc.
  - by destruct c.
  - destruct b as [| y b]; [discriminate Hab |].
    destruct c as [| z c]; [discriminate Hbc |].
    unfold String.leb in *.
    rewrite DatetimeFacts.compare_cons in *.
    unfold Ascii.compare in *.
    destruct (N.compare_spec (N_of_ascii x) (N_of_ascii y)) as [Hxy | Hxy | Hxy];
      [| | discriminate Hab];
      (destruct (N.compare_spec (N_of_ascii y) (N_of_ascii z))
         as [Hyz | Hyz | Hyz]; [| | discriminate Hbc]); cbn [Datetime.lex] in *.
    + rewrite Hxy, Hyz, N.compare_refl. cbn [Datetime.lex].
      specialize (IH b c). unfold String.leb in IH. by apply IH.
    + rewrite Hxy, (proj2 (N.compare_lt_iff _ _) Hyz). done.
    + rewrite <- Hyz, (proj2 (N.compare_lt_iff _ _) Hxy). done.
    + rewrite (proj2 (N.compare_lt_iff _ _) (N.lt_trans _ _ _ Hxy Hyz)). done.
Qed.

Section RangeResults.

Context {A : Type} `{Amount A}.

(** X7. [get_records_by_date_range] never returns a record from outside
    the range or of another type than the one asked for: every record of
    the result is read back from a stored row whose timestamp text lies
    between the two bounds, has the type of the filter if there is one,
    and, when the row's timestamp was written by [isoformat], a timestamp
    not before [S] and not after [E]. This holds for every state of the
    file. *)
Theorem date_range_sound (now : datetime) (s : storage A)
    (start_date end_date : datetime) (type_asked : option string)
    (R : Record_ A) :
  R ∈ get_records_by_date_range now s start_date end_date type_asked ->
  (forall t, type_filter type_asked = Some t ->
             RecordType_value (record_type R) = t) /\
  exists row,
    row ∈ stored_records s /\
    record_id R = row_id row /\
    amount R = row_amount row /\
    between (row_record_date row) (Datetime.isoformat start_date)
            (Datetime.isoformat end_date) = true /\
    (iso_date row = true ->
     Datetime.valid start_date = true -> Datetime.valid end_date = true ->
     Datetime.leb start_date (record_date R) = true /\
     Datetime.leb (record_date R) end_date = true).
Proof.
  unfold get_records_by_date_range, get_records_by_date_range_body.
  destruct s as [| [[rows |] [cats |]]];
    try (intros HR; by apply elem_of_nil in HR).
  cbn [connect from_records from_categories records categories
       mbind result_bind stored_records default].
  set (sel := filter _ rows).
  destruct (for_each _ (order_by_record_date_desc sel)) as [Rs |] eqn:HRs;
    [| intros HR; by apply elem_of_nil in HR].
  cbn [try_except]. intros HR.
  apply for_each_Forall2 in HRs.
  apply list_elem_of_lookup in HR as [i Hi].
  destruct (Forall2_lookup_r _ _ _ _ _ HRs Hi) as (row & Hrow & Hread).
  apply list_elem_of_lookup_2 in Hrow. rewrite elem_of_order_by in Hrow.
  apply list_elem_of_filter in Hrow as [Hwhere Hrow].
  unfold where_clause in Hwhere. apply andb_true_iff in Hwhere as [Hb Hty].
  apply record_of_row_fields in Hread
    as (Hid & Ham & Htype & _ & _ & _ & Hdate).
  split.
  - intros t Ht. rewrite Ht in Hty. apply String.eqb_eq in Hty. congruence.
  - exists row. repeat split; try done.
    all: unfold iso_date in *;
      destruct (Datetime.fromisoformat (row_record_date row)) as [d |] eqn:Hd;
      [| discriminate];
      match goal with Hiso : String.eqb _ _ = true |- _ =>
        apply String.eqb_eq in Hiso end;
      pose proof (fromisoformat_valid _ _ Hd) as Hvd;
      unfold between in Hb; apply andb_true_iff in Hb as [Hlo Hhi];
      rewrite Hdate;
      match goal with Hiso : Datetime.isoformat d = _ |- _ =>
        rewrite <- Hiso in Hlo, Hhi end;
      rewrite DatetimeFacts.leb_isoformat in Hlo, Hhi by done; done.
Qed.

(** No text lies between the bounds of a range whose end is before its
    start. *)
Lemma between_reversed (x : string) (start_date end_date : datetime) :
  Datetime.valid start_date = true -> Datetime.valid end_date = true ->
  Datetime.leb start_date end_date = false ->
  between x (Datetime.isoformat start_date) (Datetime.isoformat end_date)
  = false.
Proof.
  intros HS HE Hrev. destruct (between _ _ _) eqn:Hb; [| done].
  unfold between in Hb. apply andb_true_iff in Hb as [Hlo Hhi].
  pose proof (string_leb_trans _ _ _ Hlo Hhi) as Hle.
  rewrite DatetimeFacts.leb_isoformat in Hle by done. congruence.
Qed.

Lemma where_clause_reversed (start_date end_date : datetime)
    (record_type : option string) (rows : list (record_row A)) :
  Datetime.valid start_date = true -> Datetime.valid end_date = true ->
  Datetime.leb start_date end_date = false ->
  filter (fun r => where_clause start_date end_date record_type r = true) rows
  = [].
Proof.
  intros HS HE Hrev.
  induction rows as [| r rows IH]; [done |].
  rewrite filter_cons_False; [done |].
  unfold where_clause. by rewrite between_reversed.
Qed.

(** X8. A range whose end is before its start is empty, not an error:
    for every state of the file [get_records_by_date_range] returns no
    record, every total of [get_summary_by_date_range] is 0.0 and
    [get_category_summary] returns the empty mapping. *)
Theorem reversed_range_is_empty (now : datetime) (s : storage A)
    (start_date end_date : datetime) (record_type : option string) :
  Datetime.valid start_date = true -> Datetime.valid end_date = true ->
  Datetime.leb start_date end_date = false ->
  get_records_by_date_range now s start_date end_date record_type = [] /\
  (forall k v,
     get_summary_by_date_range s start_date end_date record_type !! k = Some v ->
     v = amount_zero) /\
  get_category_summary s start_date end_date record_type = ∅.
Proof.
  intros HS HE Hrev.
  unfold get_records_by_date_range, get_records_by_date_range_body,
    get_summary_by_date_range, get_summary_by_date_range_body,
    get_category_summary, get_category_summary_body.
  assert (Hzero : forall k v, zero_totals (A:=A) !! k = Some v -> v = amount_zero).
  { intros k v. rewrite zero_totals_labels.
    destruct (decide _); [by intros [= <-] | discriminate]. }
  destruct s as [| [[rows |] cats]]; cbn [connect from_records records
    categories mbind result_bind try_except]; try done.
  rewrite !where_clause_reversed by done.
  split; [| split].
  - by destruct cats.
  - cbn. intros k v.
    destruct (type_filter record_type) as [t |]; cbn [try_except].
    + destruct (decide (k = t)) as [-> | Hne].
      * rewrite lookup_singleton_eq. intros [= <-].
        destruct (zero_totals !! t) eqn:Ht; [by apply (Hzero t) | done].
      * by rewrite lookup_singleton_ne.
    + apply Hzero.
  - by destruct cats.
Qed.

End RangeResults.

Lemma date_range_sound_witness :
  exists row,
    row ∈ stored_records example_store /\
    record_id (mkRecord 2 660000 INCOME
                 (mkCategory (Some 8) (Some "工资收入") (Some "💰")
                             (Some "#52BE80"))
                 WECHAT (Some "salary") (Datetime.mk 2024 2 28 9 0 0 0))
    = row_id row.
Proof.
  destruct (date_range_sound (A:=Z) example_now example_store
              example_start example_end (Some "收入")
              (mkRecord 2 660000 INCOME
                 (mkCategory (Some 8) (Some "工资收入") (Some "💰")
                             (Some "#52BE80"))
                 WECHAT (Some "salary") (Datetime.mk 2024 2 28 9 0 0 0)))
    as (_ & row & Hrow & Hid & _).
  - vm_compute. apply list_elem_of_here.
  - by exists row.
Defined.

Lemma reversed_range_is_empty_witness :
  get_records_by_date_range example_now example_store
    example_end example_start None = [].
Proof.
  apply (reversed_range_is_empty (A:=Z) example_now example_store
           example_end example_start None); reflexivity.
Defined.

(** * A new record in the summaries *)

Section SummaryAfterInsert.

Context {A : Type} `{Amount A} `{!ExactAmount A}.

Lemma type_total_snoc (k : string) (rows : list (record_row A))
    (row : record_row A) :
  type_total k (rows ++ [row])
  = if decide (row_type row = k)
    then amount_add (type_total k rows) (row_amount row)
    else type_total k rows.
Proof.
  unfold type_total, sql_sum. rewrite filter_app, fmap_app, foldl_app.
  rewrite filter_cons, filter_nil.
  by destruct (decide (row_type row = k)).
Qed.

(** The totals by type after one more row, from the totals before. *)
Lemma store_totals_snoc (rows : list (record_row A)) (row : record_row A) :
  row_type row ∈ RecordType_labels ->
  store_totals zero_totals (sum_group_by_type (rows ++ [row]))
  = <[row_type row :=
        amount_add
          (default amount_zero
             (store_totals zero_totals (sum_group_by_type rows)
                !! row_type row))
          (row_amount row)]>
      (store_totals zero_totals (sum_group_by_type rows)).
Proof.
  intros Hlabel. apply map_eq. intros k.
  destruct (decide (row_type row = k)) as [<- | Hne].
  - rewrite lookup_insert_eq, !store_totals_label by done.
    rewrite type_total_snoc, decide_True by done.
    by rewrite !py_or_exact.
  - rewrite lookup_insert_ne by done. rewrite !store_totals_group.
    rewrite type_total_snoc.
    destruct (decide (row_type row = k)) as [? | _]; [done |].
    destruct (decide (k ∈ row_type <$> rows)) as [Hin | Hnin].
    + rewrite decide_True; [done |]. rewrite fmap_app.
      apply elem_of_app. by left.
    + rewrite decide_False; [done |]. rewrite fmap_app.
      intros [Hin | Hin]%elem_of_app; [done |].
      apply list_elem_of_singleton in Hin. congruence.
Qed.

Lemma row_of_record_label (id : Z) (record : Record_ A) :
  row_type (row_of_record id record) ∈ RecordType_labels.
Proof.
  pose proof (known_labels_row_of_record id record) as Hk.
  by apply known_labels_spec in Hk as [Hk _].
Qed.

(** X9. With amounts that add exactly: after [add_record(R)] the summary
    of a range for all types has [R]'s amount added to the total of [R]'s
    type when [R]'s timestamp lies in the range, the other total being
    unchanged; and it is the summary of before when the timestamp lies
    outside the range. *)
Theorem add_record_updates_summary (s : storage A) (R : Record_ A)
    (start_date end_date : datetime) :
  (add_record s R).1 = true ->
  Datetime.valid (record_date R) = true ->
  Datetime.valid start_date = true ->
  Datetime.valid end_date = true ->
  let label := RecordType_value (record_type R) in
  let before := get_summary_by_date_range s start_date end_date None in
  let after :=
    get_summary_by_date_range (add_record s R).2 start_date end_date None in
  (Datetime.leb start_date (record_date R)
   && Datetime.leb (record_date R) end_date = true ->
   after = <[label := amount_add (default amount_zero (before !! label))
                                 (amount R)]> before) /\
  (Datetime.leb start_date (record_date R)
   && Datetime.leb (record_date R) end_date = false ->
   after = before).
Proof.
  intros Hok Hd HS HE label before after. subst label before after.
  destruct (add_record_true s R Hok)
    as (rows & cats & seq & -> & _ & _ & ->).
  unfold get_summary_by_date_range, get_summary_by_date_range_body.
  cbn [connect from_records records mbind result_bind type_filter try_except].
  set (row := row_of_record (1 + used_rowid seq rows) R).
  assert (Hwhere : where_clause start_date end_date None row
                   = Datetime.leb start_date (record_date R)
                     && Datetime.leb (record_date R) end_date).
  { unfold where_clause, between. cbn [type_filter row row_of_record
      row_record_date]. rewrite !DatetimeFacts.leb_isoformat by done.
    apply andb_true_r. }
  rewrite filter_app, filter_cons, filter_nil.
  split; intros Hin; rewrite <- Hwhere in Hin.
  - rewrite decide_True by done.
    apply (store_totals_snoc _ row). apply row_of_record_label.
  - rewrite decide_False by congruence. by rewrite app_nil_r.
Qed.

(** X10. With amounts that add exactly: after [add_record(R)] for a
    record dated in the month of the clock reading, the monthly summary
    has [R]'s amount added to the total of [R]'s type, the other total
    being unchanged. *)
Theorem add_record_updates_monthly_summary (now : datetime) (s : storage A)
    (R : Record_ A) :
  (add_record s R).1 = true ->
  Datetime.valid (record_date R) = true ->
  Datetime.year (record_date R) = Datetime.year now ->
  Datetime.month (record_date R) = Datetime.month now ->
  let label := RecordType_value (record_type R) in
  get_monthly_summary now (add_record s R).2
  = <[label := amount_add
                 (default amount_zero (get_monthly_summary now s !! label))
                 (amount R)]>
      (get_monthly_summary now s).
Proof.
  intros Hok Hd Hy Hm label. subst label.
  destruct (add_record_true s R Hok)
    as (rows & cats & seq & -> & _ & _ & ->).
  unfold get_monthly_summary, get_monthly_summary_body.
  cbn [connect from_records records mbind result_bind try_except].
  set (row := row_of_record (1 + used_rowid seq rows) R).
  rewrite filter_app, filter_cons, filter_nil.
  rewrite decide_True.
  - apply (store_totals_snoc _ row). apply row_of_record_label.
  - unfold sqlite_strftime_Ym. subst row. cbn [row_of_record row_record_date].
    rewrite DatetimeFacts.fromisoformat_isoformat by done.
    unfold Datetime.strftime_Ym. by rewrite Hy, Hm.
Qed.

End SummaryAfterInsert.

Lemma add_record_updates_summary_witness :
  get_summary_by_date_range (add_record example_store supermarket).2
    example_start example_end None !! "支出"
  = Some (25680 + 25680).
Proof.
  destruct (add_record_updates_summary (A:=Z) example_store supermarket
              example_start example_end)
    as [Hinside _]; [by vm_compute .. |].
  rewrite Hinside by (by vm_compute). by vm_compute.
Defined.

Lemma add_record_updates_monthly_summary_witness :
  get_monthly_summary (Datetime.mk 2024 2 29 12 0 0 0)
    (add_record example_store salary).2 !! "收入"
  = Some (660000 + 660000).
Proof.
  rewrite (add_record_updates_monthly_summary (A:=Z)
             (Datetime.mk 2024 2 29 12 0 0 0) example_store salary)
    by (by vm_compute).
  by vm_compute.
Defined.

(** * Totals by category *)

Section CategoryTotals.

Context {A : Type} `{Amount A}.






End CategoryTotals.


(** * The amount entry *)

Section AmountEntryFacts.

Context {char : Type} `{EqDecision char} (isdigit : char -> bool) (dot : char).

Lemma split_dot_first (p rest : list char) :
  dot ∉ p -> split_dot dot (p ++ dot :: rest) = p :: split_dot dot rest.
Proof.
  induction p as [| c p IH]; intros Hp; cbn [app split_dot].
  - by rewrite decide_True.
  - apply not_elem_of_cons in Hp as [Hc Hp].
    rewrite decide_False by done. by rewrite IH.
Qed.

Lemma split_dot_no_dot (text : list char) :
  dot ∉ text -> split_dot dot text = [text].
Proof.
  induction text as [| c text IH]; intros Hd; cbn [split_dot]; [done |].
  apply not_elem_of_cons in Hd as [Hc Hd].
  rewrite decide_False by done. by rewrite IH.
Qed.

Lemma split_dot_cons (text : list char) :
  exists piece pieces, split_dot dot text = piece :: pieces.
Proof.
  induction text as [| c text (piece & pieces & IH)]; cbn [split_dot].
  - by eexists _, _.
  - destruct (decide (c = dot)); [by eexists _, _ |].
    rewrite IH. by eexists _, _.
Qed.

(** [''.join(text.split('.'))] is the text without its dots. *)
Lemma concat_split_dot (text : list char) :
  concat (split_dot dot text) = filter (fun c => c <> dot) text.
Proof.
  induction text as [| c text IH]; cbn [split_dot]; [done |].
  rewrite filter_cons.
  destruct (decide (c = dot)) as [-> | Hc].
  - rewrite decide_False by tauto. exact IH.
  - rewrite decide_True by done.
    destruct (split_dot_cons text) as (piece & pieces & Hs).
    rewrite Hs in *. cbn [concat app] in *. by rewrite IH.
Qed.

Lemma count_dot_no_dot (text : list char) :
  dot ∉ text -> count_dot dot text = 0%nat.
Proof.
  intros Hd. unfold count_dot.
  induction text as [| c text IH]; [done |].
  apply not_elem_of_cons in Hd as [Hc Hd].
  rewrite filter_cons_False by done. by apply IH.
Qed.

Lemma count_dot_first (p rest : list char) :
  dot ∉ p -> count_dot dot (p ++ dot :: rest) = S (count_dot dot rest).
Proof.
  intros Hp. pose proof (count_dot_no_dot p Hp) as Hc. unfold count_dot in *.
  rewrite filter_app, length_app, Hc, filter_cons_True by done. done.
Qed.

Lemma no_dot_after_filter (text : list char) :
  dot ∉ filter (fun c => c <> dot) text.
Proof. intros [Hd _]%list_elem_of_filter. done. Qed.

Lemma filter_no_dot (text : list char) :
  dot ∉ text -> filter (fun c => c <> dot) text = text.
Proof.
  induction text as [| c text IH]; intros Hd; [done |].
  apply not_elem_of_cons in Hd as [Hc Hd].
  rewrite filter_cons_True by done. by rewrite IH.
Qed.

(** The text left in the entry, in closed form: without a dot the kept
    characters; otherwise the kept characters up to the first dot, the
    dot, and of what follows it the first two characters that are no
    dot. *)
Lemma on_amount_change_cases (current_text : list char) :
  let kept := filter (amount_char isdigit dot) current_text in
  ((dot ∉ kept) /\ _on_amount_change isdigit dot current_text = Ok kept) \/
  exists p rest,
    kept = (p ++ dot :: rest)%list /\ (dot ∉ p) /\
    _on_amount_change isdigit dot current_text
    = Ok (p ++ dot :: take 2 (filter (fun c => c <> dot) rest))%list.
Proof.
  intros kept. unfold _on_amount_change.
  change (filter _ current_text) with kept.
  destruct (decide (dot ∈ kept)) as [Hin | Hnin].
  - right.
    destruct (list_elem_of_split_l kept dot Hin) as (p & rest & Hk & Hp).
    exists p, rest. split; [done |]. split; [done |].
    set (rest' := filter (fun c => c <> dot) rest).
    assert (Hone :
      (if (1 <? count_dot dot kept)%nat
       then (default [] (head (split_dot dot kept)) ++ [dot]
             ++ concat (tail (split_dot dot kept)))%list
       else kept) = (p ++ dot :: rest')%list).
    { rewrite Hk, count_dot_first, split_dot_first by done.
      cbn [head tail default]. rewrite concat_split_dot. fold rest'.
      destruct (1 <? S (count_dot dot rest))%nat eqn:Hc; [done |].
      apply Nat.ltb_ge in Hc.
      assert (Hrest : dot ∉ rest).
      { intros Hd. unfold count_dot in Hc.
        destruct (filter (fun c => c = dot) rest) as [| c l] eqn:Hf.
        - by eapply (filter_nil_not_elem_of _ _ dot Hf).
        - simpl in Hc. lia. }
      subst rest'. by rewrite filter_no_dot. }
    rewrite Hone.
    rewrite decide_True by (apply elem_of_app; right; apply list_elem_of_here).
    rewrite split_dot_first by done.
    rewrite split_dot_no_dot by apply no_dot_after_filter.
    destruct (2 <? length rest')%nat eqn:Hlen; [done |].
    apply Nat.ltb_ge in Hlen. by rewrite take_ge.
  - left. split; [done |].
    rewrite count_dot_no_dot by done. cbn [Nat.ltb Nat.leb].
    by rewrite decide_False.
Qed.

Lemma Forall_sublist {T} (P : T -> Prop) (l1 l2 : list T) :
  l1 `sublist_of` l2 -> Forall P l2 -> Forall P l1.
Proof.
  intros Hs Hl. apply sublist_subseteq in Hs.
  rewrite Forall_forall in *. intros x Hx. by apply Hl, Hs.
Qed.

Lemma count_dot_zero (text : list char) :
  count_dot dot text = 0%nat -> dot ∉ text.
Proof.
  unfold count_dot. intros Hc Hd.
  destruct (filter (fun c => c = dot) text) as [| c l] eqn:Hf; [| done].
  by eapply (filter_nil_not_elem_of _ _ dot Hf).
Qed.

Lemma first_dot_unique (p1 p2 d1 d2 : list char) :
  dot ∉ p1 -> dot ∉ d1 ->
  (p1 ++ dot :: d1 = p2 ++ dot :: d2)%list -> p1 = p2 /\ d1 = d2.
Proof.
  revert p2. induction p1 as [| c p1 IH]; intros p2 Hp Hd Heq.
  - destruct p2 as [| c2 p2]; cbn [app] in Heq.
    + by injection Heq as ->.
    + injection Heq as <- ->. exfalso. apply Hd.
      apply elem_of_app. right. apply list_elem_of_here.
  - apply not_elem_of_cons in Hp as [Hc Hp].
    destruct p2 as [| c2 p2]; cbn [app] in Heq.
    + by injection Heq as -> _.
    + injection Heq as -> Heq. destruct (IH p2 Hp Hd Heq) as [-> ->]. done.
Qed.

Lemma filter_amount_char_id (text : list char) :
  Forall (amount_char isdigit dot) text ->
  filter (amount_char isdigit dot) text = text.
Proof.
  induction 1 as [| c text Hc _ IH]; [done |].
  by rewrite filter_cons_True, IH.
Qed.

(** An accepted text is left as it is. *)
Lemma amount_text_fixed (text : list char) :
  amount_text isdigit dot text ->
  _on_amount_change isdigit dot text = Ok text.
Proof.
  intros (Hchars & Hcount & Hdec).
  destruct (on_amount_change_cases text) as [[_ ->] | (p & rest & Hk & Hp & ->)];
    rewrite filter_amount_char_id in * by done; [done |].
  subst text. rewrite count_dot_first in Hcount by done.
  assert (Hrest : dot ∉ rest) by (apply count_dot_zero; lia).
  rewrite filter_no_dot by done.
  rewrite take_ge; [done |]. by apply (Hdec p rest).
Qed.

(** X12. [_on_amount_change] never raises: the unpacking of the split
    text always finds two pieces. The text it leaves in the entry
    consists of digits and at most one dot with at most two characters
    after it, it is obtained from the typed text by dropping characters
    only, and a second pass leaves it unchanged. *)
Theorem on_amount_change_shape (current_text : list char) :
  exists text,
    _on_amount_change isdigit dot current_text = Ok text /\
    amount_text isdigit dot text /\
    text `sublist_of` current_text /\
    _on_amount_change isdigit dot text = Ok text.
Proof.
  pose proof (on_amount_change_cases current_text) as Hcases.
  cbv zeta in Hcases.
  assert (Hkept : Forall (amount_char isdigit dot)
                    (filter (amount_char isdigit dot) current_text)).
  { apply Forall_forall. intros c Hc.
    by apply list_elem_of_filter in Hc as [Hc _]. }
  assert (Hsub : filter (amount_char isdigit dot) current_text
                 `sublist_of` current_text) by apply sublist_filter.
  remember (filter (amount_char isdigit dot) current_text) as kept eqn:Hkdef.
  clear Hkdef.
  assert (Hshape : exists text,
            _on_amount_change isdigit dot current_text = Ok text /\
            amount_text isdigit dot text /\ text `sublist_of` current_text).
  { destruct Hcases as [[Hno ->] | (p & rest & Hk & Hp & ->)].
    - exists kept. split; [done |]. split; [| done].
      split; [done |]. split; [by rewrite count_dot_no_dot by done; lia |].
      intros p d Heq. exfalso. apply Hno. rewrite Heq.
      apply elem_of_app. right. apply list_elem_of_here.
    - set (rest' := filter (fun c => c <> dot) rest).
      assert (Hno : dot ∉ take 2 rest').
      { intros Hd. apply (no_dot_after_filter rest).
        by apply (subseteq_take 2 rest'). }
      exists (p ++ dot :: take 2 rest')%list. split; [done |].
      rewrite Hk in Hkept, Hsub.
      apply Forall_app in Hkept as [Hfp Hfr].
      apply Forall_cons in Hfr as [Hfd Hfr].
      assert (Hsubr : take 2 rest' `sublist_of` rest).
      { etrans; [apply sublist_take | apply sublist_filter]. }
      split; [split; [| split] |].
      + apply Forall_app. split; [done |]. constructor; [done |].
        by eapply Forall_sublist.
      + rewrite count_dot_first by done.
        rewrite count_dot_no_dot by done. lia.
      + intros p2 d Heq.
        destruct (first_dot_unique _ _ _ _ Hp Hno Heq) as [_ <-].
        rewrite length_take. lia.
      + etrans; [| exact Hsub].
        apply sublist_app; [done |]. by apply sublist_skip. }
  destruct Hshape as (text & Hres & Htext & Hsubt).
  exists text. repeat split; try done; try apply Htext.
  by apply amount_text_fixed.
Qed.

(** X13. The texts that [_on_amount_change] leaves as they are are
    exactly the accepted ones: digits and at most one dot with at most
    two characters after it. *)
Theorem on_amount_change_fixed_iff (text : list char) :
  _on_amount_change isdigit dot text = Ok text <->
  amount_text isdigit dot text.
Proof.
  split; [| apply amount_text_fixed].
  intros Hfix.
  destruct (on_amount_change_cases text)
    as [[Hno Hres] | (p & rest & Hk & Hp & Hres)];
    rewrite Hres in Hfix; injection Hfix as Hfix.
  - assert (Hchars : Forall (amount_char isdigit dot) text).
    { rewrite <- Hfix. apply Forall_forall. intros c Hc.
      by apply list_elem_of_filter in Hc as [Hc _]. }
    rewrite Hfix in Hno.
    split; [done |]. split; [rewrite count_dot_no_dot by done; lia |].
    intros p d Heq. exfalso. apply Hno. rewrite Heq.
    apply elem_of_app. right. apply list_elem_of_here.
  - set (rest' := filter (fun c => c <> dot) rest) in *.
    assert (Hno : dot ∉ take 2 rest').
    { intros Hd. apply (no_dot_after_filter rest).
      by apply (subseteq_take 2 rest'). }
    assert (Hchars : Forall (amount_char isdigit dot) text).
    { assert (Hf : Forall (amount_char isdigit dot)
                     (filter (amount_char isdigit dot) text)).
      { apply Forall_forall. intros c Hc.
        by apply list_elem_of_filter in Hc as [Hc _]. }
      rewrite Hk in Hf. apply Forall_app in Hf as [Hfp Hfr].
      apply Forall_cons in Hfr as [Hfd Hfr].
      rewrite <- Hfix. apply Forall_app. split; [done |].
      constructor; [done |].
      eapply Forall_sublist; [| exact Hfr].
      etrans; [apply sublist_take | apply sublist_filter]. }
    split; [done |]. rewrite <- Hfix. split.
    + rewrite count_dot_first by done. rewrite count_dot_no_dot by done. lia.
    + intros p2 d Heq.
      destruct (first_dot_unique _ _ _ _ Hp Hno Heq) as [_ <-].
      rewrite length_take. lia.
Qed.

End AmountEntryFacts.

(** * The record dialog *)

Section SaveRecord.

Context {A : Type} `{Amount A} `{!Money A}.


End SaveRecord.


(** * Start-up: the categories and the sample data *)

Section StartUp.

Context {A : Type} `{Amount A} `{!Money A}.

Global Instance id_le_total : Total id_le.
Proof. intros a b. unfold id_le. lia. Qed.

Lemma select_categories_perm (cats : gmap Z category_row) :
  select_categories cats ≡ₚ map_to_list cats.
Proof. apply merge_sort_Permutation. Qed.

(** What [_load_categories] returns, by the state of the file. *)
Lemma load_categories_eq (s : storage A) :
  _load_categories s
  = match s with
    | Available (mkDb _ (Some cats) _) =>
        (fun row => mkCategory (Some row.1) (Some (cat_name row.2))
                               (cat_icon row.2) (cat_color row.2))
        <$> select_categories cats
    | _ => []
    end.
Proof. by destruct s as [| [rows [cats |]]]. Qed.

(** X15. [_load_categories] returns one [Category] per row of the
    [categories] table, with the row's id, name, icon and color, in the
    order of the ids and without repeating an id; it returns the empty
    list when the file cannot be opened or has no such table. *)
Theorem load_categories_rows (s : storage A) :
  length (_load_categories s) = size (stored_categories s) /\
  (forall c, c ∈ _load_categories s <->
     exists id row,
       stored_categories s !! id = Some row /\
       c = mkCategory (Some id) (Some (cat_name row)) (cat_icon row)
                      (cat_color row)) /\
  Sorted (fun c1 c2 => exists i1 i2, category_id c1 = Some i1 /\
                                     category_id c2 = Some i2 /\ i1 <= i2)
         (_load_categories s) /\
  NoDup (category_id <$> _load_categories s).
Proof.
  rewrite load_categories_eq.
  assert (Hnone : forall l : list Category, l = [] ->
    stored_categories s = ∅ ->
    length l = size (stored_categories s) /\
    (forall c, c ∈ l <->
       exists id row,
         stored_categories s !! id = Some row /\
         c = mkCategory (Some id) (Some (cat_name row)) (cat_icon row)
                        (cat_color row)) /\
    Sorted (fun c1 c2 => exists i1 i2, category_id c1 = Some i1 /\
                                       category_id c2 = Some i2 /\ i1 <= i2) l /\
    NoDup (category_id <$> l)).
  { intros l -> ->. split; [by rewrite map_size_empty |].
    split; [| split; constructor].
    intros c. split; [by intros ?%elem_of_nil |].
    intros (id & row & Hl & _). by rewrite lookup_empty in Hl. }
  destruct s as [| [rows [cats |]]]; [by apply Hnone | | by apply Hnone].
  clear Hnone. cbn [stored_categories categories default].
  set (f := fun row : Z * category_row => mkCategory _ _ _ _).
  split; [| split; [| split]].
  - rewrite length_fmap, select_categories_perm. apply length_map_to_list.
  - intros c. rewrite list_elem_of_fmap. split.
    + intros ([id row] & -> & Hin). rewrite select_categories_perm in Hin.
      apply elem_of_map_to_list in Hin. by exists id, row.
    + intros (id & row & Hl & ->). exists (id, row). split; [done |].
      rewrite select_categories_perm. by apply elem_of_map_to_list.
  - apply (Sorted_fmap f id_le); [| apply Sorted_merge_sort, _].
    intros [i1 r1] [i2 r2] Hle. by exists i1, i2.
  - assert (Hids : category_id <$> (f <$> select_categories cats)
                   = Some <$> (select_categories cats).*1).
    { rewrite <- !list_fmap_compose. by apply list_fmap_ext. }
    rewrite Hids. apply NoDup_fmap_2; [apply _ |].
    rewrite select_categories_perm. apply NoDup_fst_map_to_list.
Qed.

(** ** The sample data *)

Lemma largest_rowid_bound (rows : list (record_row A)) (b : Z) :
  rows <> [] ->
  Forall (fun r => row_id r <= b) rows ->
  largest_rowid rows <= b.
Proof.
  unfold largest_rowid. destruct rows as [| r0 rows]; [done |]. intros _.
  rewrite fmap_cons. revert r0.
  induction rows as [| r1 rows IH]; intros r0 Hall.
  - apply Forall_inv in Hall. simpl. lia.
  - rewrite fmap_cons. cbn [foldr].
    apply Forall_cons in Hall as [Hr0 Hall].
    apply Forall_cons in Hall as [Hr1 Hall]. cbv beta in Hr1.
    assert (Hall' : Forall (fun r => row_id r <= b) (r0 :: rows))
      by (by constructor).
    specialize (IH r0 Hall'). lia.
Qed.

(** After an insert the id just assigned is the largest id in use. *)
Lemma used_rowid_after (seq : Z) (rows : list (record_row A))
    (record : Record_ A) :
  let id := 1 + used_rowid seq rows in
  used_rowid id (rows ++ [row_of_record id record]) = id.
Proof.
  intros id. unfold used_rowid at 1.
  assert (largest_rowid (rows ++ [row_of_record id record]) <= id); [| lia].
  apply largest_rowid_bound; [by destruct rows |].
  apply Forall_app. split.
  - apply Forall_forall. intros r Hr.
    pose proof (row_id_lt_next seq rows r Hr). subst id. lia.
  - by repeat constructor.
Qed.

(** One step of the loop over the samples: what an insert may change. *)
Lemma add_record_grows (s : storage A) (record : Record_ A) :
  exists new,
    stored_records (add_record s record).2 = (stored_records s ++ new)%list /\
    (length new <= 1)%nat /\
    Forall (fun r => known_labels r = true) new /\
    stored_categories (add_record s record).2 = stored_categories s /\
    initialized (add_record s record).2 = initialized s.
Proof.
  destruct ((add_record s record).1) eqn:Hadd.
  - destruct (add_record_true s record Hadd)
      as (rows & cats & seq & -> & _ & _ & ->).
    exists [row_of_record (1 + used_rowid seq rows) record].
    split; [done |]. split; [cbn; lia |].
    split; [by repeat constructor; apply known_labels_row_of_record |].
    split; [done |]. by destruct cats.
  - rewrite add_record_false by done. exists []. rewrite app_nil_r.
    split; [done |]. split; [cbn; lia |]. by repeat split.
Qed.

(** The loop over the samples keeps the rows and the categories, and
    appends at most one row per sample. *)
Lemma add_samples_spec (created : nat -> datetime) (s : storage A)
    (samples : list (A * RecordType * Category * PaymentMethod * string)) :
  exists new,
    stored_records (add_samples created s samples)
    = (stored_records s ++ new)%list /\
    (length new <= length samples)%nat /\
    Forall (fun r => known_labels r = true) new /\
    stored_categories (add_samples created s samples) = stored_categories s /\
    initialized (add_samples created s samples) = initialized s.
Proof.
  revert created s.
  induction samples as [| [[[[amount rtype] chosen] payment] text] samples IH];
    intros created s.
  - exists []. cbn [add_samples]. rewrite app_nil_r.
    split; [done |]. split; [cbn; lia |]. by repeat split.
  - cbn [add_samples].
    set (record := Record_init _ _ _ _ _ _ _ _).
    destruct (add_record_grows s record)
      as (new1 & Hrows1 & Hlen1 & Hknown1 & Hcats1 & Hinit1).
    destruct (IH (fun k => created (S k)) (add_record s record).2)
      as (new & Hrows & Hlen & Hknown & Hcats & Hinit).
    exists (new1 ++ new)%list.
    rewrite Hrows, Hrows1, Hcats, Hcats1, Hinit, Hinit1, app_assoc.
    split; [done |]. split; [rewrite length_app; cbn [length]; lia |].
    split; [by apply Forall_app |]. done.
Qed.

Lemma sample_records_None (categories : list Category) :
  sample_records categories = None <-> (length categories < 8)%nat.
Proof.
  unfold sample_records.
  destruct categories as [| c0 [| c1 [| c2 [| c3 [| c4 [| c5 [| c6
    [| c7 rest]]]]]]]]; cbn; (split; [intros; lia || discriminate |]);
    intros; done || lia.
Qed.

(** Where [_create_sample_data] leaves the file. *)
Lemma create_sample_data_store (now : datetime) (created : nat -> datetime)
    (clock : readings) (categories : list Category) (s : storage A) :
  let out := _create_sample_data now created clock categories s in
  (out.2 = s /\
   (out.1 = RaisedIndexError <->
    get_all_records now s None = [] /\ (length categories < 8)%nat)) \/
  (exists samples,
     get_all_records now s None = [] /\
     sample_records categories = Some samples /\
     length samples = 4%nat /\
     out.1 <> RaisedIndexError /\
     out.2 = add_samples created s samples).
Proof.
  intros out. subst out. unfold _create_sample_data.
  destruct (get_all_records now s None) as [| R Rs] eqn:Hget.
  - destruct (sample_records categories) as [samples |] eqn:Hsamples.
    + right. exists samples. split; [done |]. split; [done |].
      cbn [fst snd]. split; [| split; [| done]].
      * unfold sample_records in Hsamples.
        destruct (categories !! 1%nat); [| discriminate].
        destruct (categories !! 7%nat); [| discriminate].
        destruct (categories !! 0%nat); [| discriminate].
        destruct (categories !! 3%nat); [| discriminate].
        cbn in Hsamples. by injection Hsamples as <-.
      * by destruct (refresh_transactions _ _).
    + left. cbn [fst snd]. split; [done |].
      apply sample_records_None in Hsamples. by split.
  - left. cbn [fst snd]. split; [done |]. split.
    + by destruct (refresh_transactions _ _).
    + by intros [[=] _].
Qed.

(** X16. [_create_sample_data] adds rows and nothing else, and only when
    nothing can be read: it ends in [IndexError] exactly when
    [get_all_records()] returns nothing and fewer than eight categories
    were loaded, and then the file is as before, since the samples are
    listed before the first insert; when [get_all_records()] returns a
    record the file is as before; in every case the categories are
    untouched and the rows of before are kept in place, followed by at
    most four new rows, one for each insert that succeeded, all with
    labels of the enumerations. *)
Theorem create_sample_data_keeps_rows (now : datetime)
    (created : nat -> datetime) (clock : readings)
    (categories : list Category) (s : storage A) :
  let out := _create_sample_data now created clock categories s in
  (out.1 = RaisedIndexError <->
   get_all_records now s None = [] /\ (length categories < 8)%nat) /\
  (out.1 = RaisedIndexError -> out.2 = s) /\
  (get_all_records now s None <> [] -> out.2 = s) /\
  stored_categories out.2 = stored_categories s /\
  exists new,
    stored_records out.2 = (stored_records s ++ new)%list /\
    (length new <= 4)%nat /\
    Forall (fun r => known_labels r = true) new.
Proof.
  intros out.
  destruct (create_sample_data_store now created clock categories s)
    as [[Hs Hraise] | (samples & Hget & Hsamples & Hlen & Hfin & Hs)];
    fold out in Hs |- *.
  - fold out in Hraise. split; [done |]. split; [done |]. split; [done |].
    rewrite Hs. split; [done |]. exists []. rewrite app_nil_r.
    split; [done |]. split; [cbn; lia | constructor].
  - fold out in Hfin. split; [| split; [done |]].
    { split; [done |]. intros [_ Hshort].
      apply sample_records_None in Hshort. congruence. }
    split; [done |].
    destruct (add_samples_spec created s samples)
      as (new & Hrows & Hnew & Hknown & Hcats & _).
    rewrite Hs. split; [done |]. exists new.
    split; [done |]. split; [lia | done].
Qed.

(** The loop over the four samples, when each of them can be stored. *)
Lemma add_samples_four (created : nat -> datetime)
    (rows : list (record_row A)) (cats : option (gmap Z category_row))
    (seq : Z) (c0 c1 c3 c7 : Category) :
  fits_int64 (category_id c0) = true ->
  fits_int64 (category_id c1) = true ->
  fits_int64 (category_id c3) = true ->
  fits_int64 (category_id c7) = true ->
  used_rowid seq rows + 4 <= max_rowid ->
  let n := 1 + used_rowid seq rows in
  add_samples created (Available (mkDb (Some rows) cats seq))
    [ (amount_of_cents 25680, EXPENSE, c1, ALIPAY, "超市购物");
      (amount_of_cents 660000, INCOME, c7, WECHAT, "工资");
      (amount_of_cents 12800, EXPENSE, c0, WECHAT, "晚餐");
      (amount_of_cents 3900, EXPENSE, c3, CASH, "电影票") ]
  = Available (mkDb (Some (rows ++
      [ mkRow n (amount_of_cents 25680) (RecordType_value EXPENSE)
              (category_id c1) (PaymentMethod_value ALIPAY)
              (Some "超市购物") (Datetime.isoformat (created 0%nat));
        mkRow (n + 1) (amount_of_cents 660000) (RecordType_value INCOME)
              (category_id c7) (PaymentMethod_value WECHAT)
              (Some "工资") (Datetime.isoformat (created 1%nat));
        mkRow (n + 2) (amount_of_cents 12800) (RecordType_value EXPENSE)
              (category_id c0) (PaymentMethod_value WECHAT)
              (Some "晚餐") (Datetime.isoformat (created 2%nat));
        mkRow (n + 3) (amount_of_cents 3900) (RecordType_value EXPENSE)
              (category_id c3) (PaymentMethod_value CASH)
              (Some "电影票") (Datetime.isoformat (created 3%nat)) ])%list)
      cats (n + 3)).
Proof.
  intros Hc0 Hc1 Hc3 Hc7 Hroom n. cbn [add_samples].
  assert (Hst : forall c (a : Z) rtype payment text d,
            fits_int64 (category_id c) = true ->
            has_surrogate text = false ->
            storable (Record_init d 0 (amount_of_cents a) rtype c payment
                                  (Some text) None) = true).
  { intros c a rtype payment text d Hc Htext. unfold storable.
    cbn [Record_init category note amount encodable].
    by rewrite Hc, Htext, amount_of_cents_number. }
  set (sample1 := Record_init (created 0%nat) _ _ _ _ _ _ _).
  set (sample2 := Record_init (created 1%nat) _ _ _ _ _ _ _).
  set (sample3 := Record_init (created 2%nat) _ _ _ _ _ _ _).
  set (sample4 := Record_init (created 3%nat) _ _ _ _ _ _ _).
  assert (Hst1 : storable sample1 = true) by (by apply Hst).
  assert (Hst2 : storable sample2 = true) by (by apply Hst).
  assert (Hst3 : storable sample3 = true) by (by apply Hst).
  assert (Hst4 : storable sample4 = true) by (by apply Hst).
  fold n in Hroom |- *.
  assert (Hn : used_rowid seq rows = n - 1) by (subst n; lia).
  rewrite (add_record_succeeds rows cats seq sample1 Hst1) by lia.
  cbn [snd]. rewrite Hn. replace (1 + (n - 1)) with n by lia.
  set (rows1 := (rows ++ [row_of_record n sample1])%list).
  assert (H1 : used_rowid n rows1 = n).
  { pose proof (used_rowid_after seq rows sample1) as Hafter.
    cbv zeta in Hafter. rewrite Hn in Hafter.
    by replace (1 + (n - 1)) with n in Hafter by lia. }
  rewrite (add_record_succeeds rows1 cats n sample2 Hst2) by lia.
  cbn [snd]. rewrite H1.
  set (rows2 := (rows1 ++ [row_of_record (1 + n) sample2])%list).
  assert (H2 : used_rowid (1 + n) rows2 = 1 + n).
  { pose proof (used_rowid_after n rows1 sample2) as Hafter.
    cbv zeta in Hafter. by rewrite H1 in Hafter. }
  rewrite (add_record_succeeds rows2 cats (1 + n) sample3 Hst3) by lia.
  cbn [snd]. rewrite H2.
  set (rows3 := (rows2 ++ [row_of_record (1 + (1 + n)) sample3])%list).
  assert (H3 : used_rowid (1 + (1 + n)) rows3 = 1 + (1 + n)).
  { pose proof (used_rowid_after (1 + n) rows2 sample3) as Hafter.
    cbv zeta in Hafter. by rewrite H2 in Hafter. }
  rewrite (add_record_succeeds rows3 cats (1 + (1 + n)) sample4 Hst4) by lia.
  cbn [snd]. rewrite H3.
  subst rows3 rows2 rows1. rewrite <- !app_assoc. cbn [app].
  replace (1 + (1 + (1 + n))) with (n + 3) by lia.
  replace (1 + (1 + n)) with (n + 2) by lia.
  replace (1 + n) with (n + 1) by lia.
  reflexivity.
Qed.

(** X17. When [get_all_records()] returns nothing, the [records] table
    exists with four ids left and the ids of the loaded categories fit 64
    bits, [_create_sample_data] appends four rows under the next four ids
    after the largest id in the table or handed out before: the expense
    256.80 under the second loaded category paid with Alipay, the income
    6600.00 under the eighth paid with WeChat, the expense 128.00 under
    the first paid with WeChat and the expense 39.00 under the fourth paid
    in cash, each dated with the clock reading at which its record was
    made. This also happens when the table holds rows that cannot be
    read. *)
Theorem create_sample_data_appends (now : datetime)
    (created : nat -> datetime) (clock : readings)
    (categories : list Category) (rows : list (record_row A))
    (cats : option (gmap Z category_row)) (seq : Z)
    (c0 c1 c3 c7 : Category) :
  get_all_records now (Available (mkDb (Some rows) cats seq)) None = [] ->
  categories !! 0%nat = Some c0 ->
  categories !! 1%nat = Some c1 ->
  categories !! 3%nat = Some c3 ->
  categories !! 7%nat = Some c7 ->
  Forall (fun c => fits_int64 (category_id c) = true) categories ->
  used_rowid seq rows + 4 <= max_rowid ->
  let n := 1 + used_rowid seq rows in
  (_create_sample_data now created clock categories
     (Available (mkDb (Some rows) cats seq))).2
  = Available (mkDb (Some (rows ++
      [ mkRow n (amount_of_cents 25680) (RecordType_value EXPENSE)
              (category_id c1) (PaymentMethod_value ALIPAY)
              (Some "超市购物") (Datetime.isoformat (created 0%nat));
        mkRow (n + 1) (amount_of_cents 660000) (RecordType_value INCOME)
              (category_id c7) (PaymentMethod_value WECHAT)
              (Some "工资") (Datetime.isoformat (created 1%nat));
        mkRow (n + 2) (amount_of_cents 12800) (RecordType_value EXPENSE)
              (category_id c0) (PaymentMethod_value WECHAT)
              (Some "晚餐") (Datetime.isoformat (created 2%nat));
        mkRow (n + 3) (amount_of_cents 3900) (RecordType_value EXPENSE)
              (category_id c3) (PaymentMethod_value CASH)
              (Some "电影票") (Datetime.isoformat (created 3%nat)) ])%list)
      cats (n + 3)).
Proof.
  intros Hget H0' H1' H3' H7' Hfits Hroom n. unfold _create_sample_data.
  rewrite Hget. unfold sample_records. rewrite H0', H1', H3', H7'.
  cbn [mbind option_bind snd].
  rewrite Forall_forall in Hfits.
  apply add_samples_four; [.. | done];
    apply Hfits; by eapply list_elem_of_lookup_2.
Qed.

(** ** Start-up *)

(** After the seeding there are at least ten categories. *)
Lemma insert_default_data_size (cats : gmap Z category_row) :
  (10 <= size (_insert_default_data cats))%nat.
Proof.
  pose proof (seed_present default_categories cats) as Hpresent.
  fold (_insert_default_data cats) in Hpresent.
  rewrite <- (size_dom (D := gset Z)).
  assert (Hsub : list_to_set (C := gset Z) default_categories.*1
                 ⊆ dom (_insert_default_data cats)).
  { intros id Hid. apply elem_of_list_to_set, list_elem_of_fmap in Hid
      as (c & -> & Hc).
    apply elem_of_dom. rewrite Forall_forall in Hpresent.
    by apply Hpresent. }
  apply subseteq_size in Hsub.
  rewrite size_list_to_set in Hsub; [exact Hsub |].
  apply (bool_decide_unpack _). by vm_compute.
Qed.

Lemma init_database_available (db : database A) :
  _init_database (Available db)
  = Available (mkDb (Some (default [] (records db)))
                    (Some (_insert_default_data
                             (default ∅ (categories db))))
                    (sequence db)).
Proof. reflexivity. Qed.

(** The file after [MainApp.__init__] is the file after
    [_create_sample_data]; the second drawing decides how it ends. *)
Lemma MainApp_init_store (now : datetime) (created : nat -> datetime)
    (clock clock' : readings) (s : storage A) :
  let s0 := _init_database s in
  let sampled :=
    _create_sample_data now created clock (_load_categories s0) s0 in
  (MainApp_init now created clock clock' s).2 = sampled.2 /\
  ((MainApp_init now created clock clock' s).1 = RaisedIndexError <->
   sampled.1 = RaisedIndexError).
Proof.
  intros s0 sampled. unfold MainApp_init. fold s0. fold sampled.
  destruct sampled as [[| | e] s1]; cbn [fst snd]; [| done | done].
  split; [done |]. by destruct (refresh_transactions clock' s1).
Qed.

(** X18. [MainApp.__init__] ends in [IndexError] exactly when the file
    cannot be opened: then no category is loaded, no record is read and
    the samples index an empty list. When the file opens, both tables
    exist afterwards, each of the ten default ids names a category, and
    no category and no row of before is changed or removed; on a new file
    the ten default categories and the four samples are stored, the
    samples under the categories 2, 8, 1 and 4. *)
Theorem MainApp_init_start_up (now : datetime) (created : nat -> datetime)
    (clock clock' : readings) (s : storage A) :
  let out := MainApp_init now created clock clock' s in
  (out.1 = RaisedIndexError <-> s = Unavailable) /\
  (s = Unavailable -> out.2 = Unavailable) /\
  (s <> Unavailable ->
   initialized out.2 = true /\
   Forall (fun c => is_Some (stored_categories out.2 !! c.1))
          default_categories /\
   stored_categories s ⊆ stored_categories out.2 /\
   stored_records s `prefix_of` stored_records out.2) /\
  (s = fresh ->
   stored_categories out.2 = list_to_map default_categories /\
   (row_id <$> stored_records out.2 = [1; 2; 3; 4]) /\
   (row_category_id <$> stored_records out.2
    = [Some 2; Some 8; Some 1; Some 4]) /\
   (row_note <$> stored_records out.2
    = [Some "超市购物"; Some "工资"; Some "晚餐"; Some "电影票"])).
Proof.
  intros out.
  destruct (MainApp_init_store now created clock clock' s) as [Hs Hraise].
  fold out in Hs, Hraise. rewrite Hs, Hraise. clear Hs Hraise out.
  destruct s as [| db].
  { split; [done |]. split; [done |]. split; [done |]. discriminate. }
  rewrite init_database_available.
  set (rows0 := default [] (records db)).
  set (cats0 := _insert_default_data (default ∅ (categories db))).
  set (s0 := Available (mkDb (Some rows0) (Some cats0) (sequence db))).
  assert (Hloaded : (8 <= length (_load_categories s0))%nat).
  { rewrite load_categories_eq. subst s0. cbv iota beta.
    rewrite length_fmap, select_categories_perm, length_map_to_list.
    pose proof (insert_default_data_size (default ∅ (categories db)))
      as Hsize.
    fold cats0 in Hsize. lia. }
  set (sampled := _create_sample_data now created clock
                    (_load_categories s0) s0).
  assert (Hafter : exists new,
            stored_records sampled.2 = (rows0 ++ new)%list /\
            stored_categories sampled.2 = cats0 /\
            initialized sampled.2 = true).
  { destruct (create_sample_data_store now created clock
                (_load_categories s0) s0)
      as [[Hs _] | (samples & _ & _ & _ & _ & Hs)]; fold sampled in Hs.
    - exists []. by rewrite Hs, app_nil_r.
    - destruct (add_samples_spec created s0 samples)
        as (new & Hrows & _ & _ & Hcats & Hinit).
      exists new. by rewrite Hs, Hrows, Hcats, Hinit. }
  destruct Hafter as (new & Hrows & Hcats & Hinit).
  split; [| split; [done |]; split].
  - split; [| done]. intros Hraise.
    destruct (create_sample_data_store now created clock
                (_load_categories s0) s0)
      as [[_ Hiff] | (_ & _ & _ & _ & Hfin & _)]; [| done].
    apply Hiff in Hraise as [_ Hshort]. lia.
  - intros _. rewrite Hrows, Hcats. split; [done |]. split; [| split].
    + apply seed_present.
    + destruct db as [rows cats seq]. simpl. apply seed_subseteq.
    + destruct db as [rows cats seq]. simpl. by apply prefix_app_r.
  - intros [= ->]. clear. subst sampled s0 cats0 rows0.
    set (s0 := Available (mkDb (A:=A) (Some [])
                               (Some (_insert_default_data ∅)) 0)).
    change (Available (mkDb (Some (default [] (records (mkDb None None 0))))
                            (Some (_insert_default_data
                               (default ∅ (categories (mkDb None None 0)))))
                            (sequence (mkDb None None 0))))
      with s0.
    unfold _create_sample_data.
    assert (Hget : get_all_records now s0 None = []) by (by vm_compute).
    rewrite Hget.
    assert (Hsamples :
      sample_records (_load_categories s0)
      = Some [ (amount_of_cents 25680, EXPENSE,
                mkCategory (Some 2) (Some "购物消费") (Some "🎒")
                           (Some "#4ECDC4"), ALIPAY, "超市购物");
               (amount_of_cents 660000, INCOME,
                mkCategory (Some 8) (Some "工资收入") (Some "💰")
                           (Some "#52BE80"), WECHAT, "工资");
               (amount_of_cents 12800, EXPENSE,
                mkCategory (Some 1) (Some "美食饮品") (Some "🍔")
                           (Some "#FF6B6B"), WECHAT, "晚餐");
               (amount_of_cents 3900, EXPENSE,
                mkCategory (Some 4) (Some "娱乐休闲") (Some "🎮")
                           (Some "#96CEB4"), CASH, "电影票") ])
      by (by vm_compute).
    rewrite Hsamples. cbn [snd]. subst s0.
    rewrite add_samples_four by (by vm_compute). by vm_compute.
Qed.

(** ** Well-formed stores stay well-formed *)

Lemma save_record_store (now : datetime) (self : CompactRecordDialog A)
    (s : storage A) :
  (_save_record now self s).2 = s \/
  exists record, (_save_record now self s).2 = (add_record s record).2.
Proof.
  unfold _save_record.
  destruct (selected_category self) as [category |]; [| by left].
  destruct (amount_le_zero (dialog_amount self)); [by left |].
  destruct (dialog_record now self category) as [record | e]; [| by left].
  right. exists record. cbn [mbind result_bind].
  by destruct (add_record s record) as [ok s1].
Qed.

Lemma store_ok_grows (s s' : storage A) (new : list (record_row A)) :
  store_ok s = true ->
  initialized s' = initialized s ->
  stored_records s' = (stored_records s ++ new)%list ->
  Forall (fun r => known_labels r = true) new ->
  store_ok s' = true.
Proof.
  unfold store_ok. intros [Hinit Hrows]%andb_true_iff Hinit' Hrows' Hnew.
  rewrite Hinit', Hinit, Hrows', forallb_app, Hrows. simpl.
  apply forallb_forall. intros r Hr. rewrite Forall_forall in Hnew.
  by apply Hnew, list_elem_of_In.
Qed.

Lemma store_ok_create_sample_data (now : datetime)
    (created : nat -> datetime) (clock : readings)
    (loaded : list Category) (s : storage A) :
  store_ok s = true ->
  store_ok (_create_sample_data now created clock loaded s).2 = true.
Proof.
  intros Hok.
  destruct (create_sample_data_store now created clock loaded s)
    as [[Hs _] | (samples & _ & _ & _ & _ & Hs)]; rewrite Hs; [done |].
  destruct (add_samples_spec created s samples)
    as (new & Hrows & _ & Hknown & _ & Hinit).
  by apply (store_ok_grows s _ new).
Qed.

Lemma store_ok_init_database (s : storage A) :
  store_ok s = true -> store_ok (_init_database s) = true.
Proof.
  intros Hok. destruct (store_ok_inv s Hok) as (rows & cats & seq & -> & _).
  exact Hok.
Qed.

(** X19. The well-formed stores (both tables exist, every row carries a
    type and a payment label of the enumerations) are closed under
    everything that writes to the file: [_init_database], [add_record],
    the dialog's [_save_record], [_create_sample_data] and the start-up
    [MainApp.__init__] all leave a well-formed store well-formed. *)
Theorem store_ok_preserved (now : datetime) (created : nat -> datetime)
    (clock clock' : readings) (loaded : list Category)
    (self : CompactRecordDialog A) (record : Record_ A) (s : storage A) :
  store_ok s = true ->
  store_ok (_init_database s) = true /\
  store_ok (add_record s record).2 = true /\
  store_ok (_save_record now self s).2 = true /\
  store_ok (_create_sample_data now created clock loaded s).2 = true /\
  store_ok (MainApp_init now created clock clock' s).2 = true.
Proof.
  intros Hok. split; [by apply store_ok_init_database |].
  split; [by apply store_ok_add_record |]. split; [| split].
  - destruct (save_record_store now self s) as [-> | [record' ->]];
      [done | by apply store_ok_add_record].
  - by apply store_ok_create_sample_data.
  - destruct (MainApp_init_store now created clock clock' s) as [-> _].
    by apply store_ok_create_sample_data, store_ok_init_database.
Qed.

End StartUp.

(** The samples are stored again, under the ids 2 to 5, in a file whose
    one row cannot be read. *)
Lemma create_sample_data_appends_witness :
  row_id <$> stored_records
    (_create_sample_data example_now (fun _ => example_now)
       (mkReadings example_now (fun _ => example_now))
       (_load_categories foreign_store) foreign_store).2
  = [1; 2; 3; 4; 5].
Proof.
  unfold foreign_store at 2.
  rewrite (create_sample_data_appends (A := Z) example_now
             (fun _ => example_now)
             (mkReadings example_now (fun _ => example_now))
             (_load_categories foreign_store) _ _ _
             (mkCategory (Some 1) (Some "美食饮品") (Some "🍔")
                         (Some "#FF6B6B"))
             (mkCategory (Some 2) (Some "购物消费") (Some "🎒")
                         (Some "#4ECDC4"))
             (mkCategory (Some 4) (Some "娱乐休闲") (Some "🎮")
                         (Some "#96CEB4"))
             (mkCategory (Some 8) (Some "工资收入") (Some "💰")
                         (Some "#52BE80")));
    [by vm_compute | by vm_compute .. | | by vm_compute].
  apply (bool_decide_unpack _). by vm_compute.
Defined.

Lemma store_ok_preserved_witness :
  store_ok (MainApp_init example_now (fun _ => example_now)
              (mkReadings example_now (fun _ => example_now))
              (mkReadings example_now (fun _ => example_now))
              example_store).2
  = true.
Proof.
  apply (store_ok_preserved (A := Z) example_now (fun _ => example_now)
           (mkReadings example_now (fun _ => example_now))
           (mkReadings example_now (fun _ => example_now)) []
           (mkDialog None 0 "" "" "") supermarket example_store).
  reflexivity.
Defined.
